(** * Banking_project.py: the account and ledger engine

    A shallow embedding of [Banking_project.py] (classes [Account],
    [SavingsAccount], [CheckingAccount], [Customer] and [Bank]) and the
    properties stated about it.

    Conventions of the embedding.
    - A Python object is a record; a method that mutates [self] returns the
      new state of the object next to its return value.
    - Amounts, balances, rates and limits are Python numbers.  They are taken
      in [Qc], the rationals in lowest terms, so [+], [-], [*] and the
      comparisons are exact.  The rounding of binary64 [float] arithmetic,
      its infinities and its NaN are not part of the model.
    - The two dictionaries of [Bank] are finite maps ([gmap]) keyed by
      strings.  An object stored in a dictionary is mutated in place by
      writing its new state back under the key it was found at.
    - The two JSON files are part of the state: [_save_data] overwrites them,
      [_load_data] reads them and may raise.  Writing is assumed to
      succeed. *)

From Stdlib Require Import QArith Qcanon.
From stdpp Require Import numbers strings list gmap.

Local Open Scope Qc_scope.

(** ** The persisted records

    A JSON object read from a file is a record of optional fields: a field is
    [None] when its key is missing from the object.  Each field, when present,
    has the type the program writes. *)

(** An element of [customers.json]. *)
Module CustomerDict.

Record t := mk {
  customer_id : option string;
  name : option string;
  address : option string;
  account_numbers : option (list string)
}.

End CustomerDict.

(** An element of [accounts.json]. *)
Module AccountDict.

Record t := mk {
  type : option string;
  account_number : option string;
  account_holder_id : option string;
  balance : option Qc;
  interest_rate : option Qc;
  overdraft_limit : option Qc
}.

End AccountDict.

(** The literals [0.01] and [0.0] of the source. *)
Definition default_interest_rate : Qc := Q2Qc 0.01.
Definition default_overdraft_limit : Qc := 0.
Definition default_balance : Qc := 0.

(** ** Account classes *)

(** [class SavingsAccount(Account)] *)
Module SavingsAccount.

Record t := mk {
  account_number : string;
  account_holder_id : string;
  balance : Qc;
  interest_rate : Qc
}.

Definition set_balance (self : t) (b : Qc) : t :=
  mk (account_number self) (account_holder_id self) b (interest_rate self).

(** [if amount > 0: self._balance += amount; return True] / [return False] *)
Definition deposit (self : t) (amount : Qc) : bool * t :=
  if bool_decide (0 < amount)
  then (true, set_balance self (balance self + amount))
  else (false, self).

(** [if 0 < amount <= self._balance: self._balance -= amount; return True] *)
Definition withdraw (self : t) (amount : Qc) : bool * t :=
  if bool_decide (0 < amount) && bool_decide (amount ≤ balance self)
  then (true, set_balance self (balance self - amount))
  else (false, self).

(** [self._balance += self._balance * self._interest_rate] *)
Definition apply_interest (self : t) : t :=
  set_balance self (balance self + balance self * interest_rate self).

(** The setter of the [interest_rate] property. *)
Definition set_interest_rate (self : t) (value : Qc) : t :=
  if bool_decide (0 ≤ value)
  then mk (account_number self) (account_holder_id self) (balance self) value
  else self.

Definition to_dict (self : t) : AccountDict.t :=
  AccountDict.mk (Some "savings") (Some (account_number self))
    (Some (account_holder_id self)) (Some (balance self))
    (Some (interest_rate self)) None.

End SavingsAccount.

(** [class CheckingAccount(Account)] *)
Module CheckingAccount.

Record t := mk {
  account_number : string;
  account_holder_id : string;
  balance : Qc;
  overdraft_limit : Qc
}.

Definition set_balance (self : t) (b : Qc) : t :=
  mk (account_number self) (account_holder_id self) b (overdraft_limit self).

Definition deposit (self : t) (amount : Qc) : bool * t :=
  if bool_decide (0 < amount)
  then (true, set_balance self (balance self + amount))
  else (false, self).

(** [if self._balance - amount >= -self._overdraft_limit: ...] *)
Definition withdraw (self : t) (amount : Qc) : bool * t :=
  if bool_decide (- overdraft_limit self ≤ balance self - amount)
  then (true, set_balance self (balance self - amount))
  else (false, self).

(** The setter of the [overdraft_limit] property. *)
Definition set_overdraft_limit (self : t) (value : Qc) : t :=
  if bool_decide (0 ≤ value)
  then mk (account_number self) (account_holder_id self) (balance self) value
  else self.

Definition to_dict (self : t) : AccountDict.t :=
  AccountDict.mk (Some "checking") (Some (account_number self))
    (Some (account_holder_id self)) (Some (balance self))
    None (Some (overdraft_limit self)).

End CheckingAccount.

(** The abstract base class: an account is an instance of one of the two
    subclasses, and a method call dispatches on the class of the object. *)
Inductive Account :=
| Savings (s : SavingsAccount.t)
| Checking (c : CheckingAccount.t).

Module Account.

Definition account_number (self : Account) : string :=
  match self with
  | Savings s => SavingsAccount.account_number s
  | Checking c => CheckingAccount.account_number c
  end.

Definition account_holder_id (self : Account) : string :=
  match self with
  | Savings s => SavingsAccount.account_holder_id s
  | Checking c => CheckingAccount.account_holder_id c
  end.

Definition balance (self : Account) : Qc :=
  match self with
  | Savings s => SavingsAccount.balance s
  | Checking c => CheckingAccount.balance c
  end.

Definition deposit (self : Account) (amount : Qc) : bool * Account :=
  match self with
  | Savings s => prod_map id Savings (SavingsAccount.deposit s amount)
  | Checking c => prod_map id Checking (CheckingAccount.deposit c amount)
  end.

Definition withdraw (self : Account) (amount : Qc) : bool * Account :=
  match self with
  | Savings s => prod_map id Savings (SavingsAccount.withdraw s amount)
  | Checking c => prod_map id Checking (CheckingAccount.withdraw c amount)
  end.

(** Assignment to [self._balance], on either class. *)
Definition set_balance (self : Account) (b : Qc) : Account :=
  match self with
  | Savings s => Savings (SavingsAccount.set_balance s b)
  | Checking c => Checking (CheckingAccount.set_balance c b)
  end.

Definition to_dict (self : Account) : AccountDict.t :=
  match self with
  | Savings s => SavingsAccount.to_dict s
  | Checking c => CheckingAccount.to_dict c
  end.

(** [isinstance(account, SavingsAccount)] *)
Definition is_savings (self : Account) : bool :=
  match self with Savings _ => true | Checking _ => false end.

(** The balance floor of each class: [balance >= 0] for a savings account,
    [balance >= -overdraft_limit] for a checking account. *)
Definition floor_ok (self : Account) : Prop :=
  match self with
  | Savings s => 0 ≤ SavingsAccount.balance s
  | Checking c => - CheckingAccount.overdraft_limit c ≤ CheckingAccount.balance c
  end.


End Account.

(** A call made on an account object, and a sequence of such calls. *)
Inductive call :=
| Deposit (amount : Qc)
| Withdraw (amount : Qc).

Definition run_call (a : Account) (c : call) : Account :=
  match c with
  | Deposit amount => (Account.deposit a amount).2
  | Withdraw amount => (Account.withdraw a amount).2
  end.



(** ** Customer *)

Module Customer.

Record t := mk {
  customer_id : string;
  name : string;
  address : string;
  account_numbers : list string
}.

Definition __init__ (customer_id name address : string) : t :=
  mk customer_id name address [].

(** The setter of the [address] property. *)
Definition set_address (self : t) (new_address : string) : t :=
  mk (customer_id self) (name self) new_address (account_numbers self).

(** [if account_number not in self._account_numbers: ...append(account_number)] *)
Definition add_account_number (self : t) (account_number : string) : t :=
  if bool_decide (account_number ∈ account_numbers self)
  then self
  else mk (customer_id self) (name self) (address self)
          (account_numbers self ++ [account_number]).

(** [list.remove]: drops the first occurrence. *)
Fixpoint list_remove (x : string) (l : list string) : list string :=
  match l with
  | [] => []
  | y :: l' => if bool_decide (x = y) then l' else y :: list_remove x l'
  end.

Definition remove_account_number (self : t) (account_number : string) : t :=
  if bool_decide (account_number ∈ account_numbers self)
  then mk (customer_id self) (name self) (address self)
          (list_remove account_number (account_numbers self))
  else self.

Definition to_dict (self : t) : CustomerDict.t :=
  CustomerDict.mk (Some (customer_id self)) (Some (name self))
    (Some (address self)) (Some (account_numbers self)).

End Customer.

(** A call made on a customer object by the code that holds it. *)
Inductive customer_call :=
| AddAccountNumber (account_number : string)
| RemoveAccountNumber (account_number : string)
| SetAddress (new_address : string).

Definition run_customer_call (c : Customer.t) (k : customer_call) : Customer.t :=
  match k with
  | AddAccountNumber n => Customer.add_account_number c n
  | RemoveAccountNumber n => Customer.remove_account_number c n
  | SetAddress a => Customer.set_address c a
  end.

(** ** Files and exceptions *)

(** What [open(path, 'r')] followed by [json.load(f)] yields: the file does
    not exist ([open] raises [FileNotFoundError]), the file exists and its
    content is not JSON ([json.load] raises [JSONDecodeError]), or the
    decoded list of objects. *)
Inductive file (A : Type) :=
| FileNotFound
| Undecodable
| Content (records : list A).
Arguments FileNotFound {A}.
Arguments Undecodable {A}.
Arguments Content {A} records.

Inductive exn :=
| KeyError (key : string)
| JSONDecodeError.

(** A computation that returns or raises. *)
Inductive result (A : Type) :=
| Ok (a : A)
| Raise (e : exn).
Arguments Ok {A} a.
Arguments Raise {A} e.

#[global] Instance result_ret : MRet result := λ A a, Ok a.
#[global] Instance result_bind : MBind result := λ A B f m,
  match m with
  | Ok a => f a
  | Raise e => Raise e
  end.

(** [d[key]]: raises [KeyError] when the key is missing. *)
Definition getitem {A} (key : string) (field : option A) : result A :=
  match field with
  | Some v => Ok v
  | None => Raise (KeyError key)
  end.

(** [dict.values()] *)
Definition values {A} (d : gmap string A) : list A := (map_to_list d).*2.

(** ** Bank *)

(** The keyword arguments of [create_account]. *)
Record kwargs := mk_kwargs {
  kw_interest_rate : option Qc;
  kw_overdraft_limit : option Qc
}.

Module Bank.

(** The object: [self._customers] and [self._accounts]. *)
Record t := mk {
  _customers : gmap string Customer.t;
  _accounts : gmap string Account
}.

(** The files named by [self._customer_file] and [self._account_file]. *)
Record files := mk_files {
  customer_file : file CustomerDict.t;
  account_file : file AccountDict.t
}.

(** A bank object together with the files it persists to. *)
Record world := mk_world {
  bank : t;
  disk : files
}.

Definition customers (w : world) : gmap string Customer.t := _customers (bank w).
Definition accounts (w : world) : gmap string Account := _accounts (bank w).

Definition with_customers (w : world) (cs : gmap string Customer.t) : world :=
  mk_world (mk cs (accounts w)) (disk w).
Definition with_accounts (w : world) (acs : gmap string Account) : world :=
  mk_world (mk (customers w) acs) (disk w).

(** *** Loading *)

(** The body of the loop over [customer_data]. *)
Definition load_customer (cust : CustomerDict.t) : result Customer.t :=
  customer_id ← getitem "customer_id" (CustomerDict.customer_id cust);
  name ← getitem "name" (CustomerDict.name cust);
  address ← getitem "address" (CustomerDict.address cust);
  mret (foldl Customer.add_account_number
          (Customer.__init__ customer_id name address)
          (default [] (CustomerDict.account_numbers cust))).

Fixpoint load_customers (customer_data : list CustomerDict.t)
    (cs : gmap string Customer.t) : result (gmap string Customer.t) :=
  match customer_data with
  | [] => mret cs
  | cust :: rest =>
      c ← load_customer cust;
      load_customers rest (<[Customer.customer_id c := c]> cs)
  end.

(** The body of the loop over [account_data]; [None] is [continue]. *)
Definition load_account (acc : AccountDict.t) : result (option Account) :=
  acc_type ← getitem "type" (AccountDict.type acc);
  let balance := default default_balance (AccountDict.balance acc) in
  if bool_decide (acc_type = "savings") then
    account_number ← getitem "account_number" (AccountDict.account_number acc);
    account_holder_id ← getitem "account_holder_id" (AccountDict.account_holder_id acc);
    mret (Some (Savings (SavingsAccount.mk account_number account_holder_id balance
            (default default_interest_rate (AccountDict.interest_rate acc)))))
  else if bool_decide (acc_type = "checking") then
    account_number ← getitem "account_number" (AccountDict.account_number acc);
    account_holder_id ← getitem "account_holder_id" (AccountDict.account_holder_id acc);
    mret (Some (Checking (CheckingAccount.mk account_number account_holder_id balance
            (default default_overdraft_limit (AccountDict.overdraft_limit acc)))))
  else mret None.

Fixpoint load_accounts (account_data : list AccountDict.t)
    (acs : gmap string Account) : result (gmap string Account) :=
  match account_data with
  | [] => mret acs
  | acc :: rest =>
      o ← load_account acc;
      match o with
      | Some account => load_accounts rest (<[Account.account_number account := account]> acs)
      | None => load_accounts rest acs
      end
  end.

(** The first [try] block: only [FileNotFoundError] is caught. *)
Definition read_customers (f : file CustomerDict.t)
    (cs : gmap string Customer.t) : result (gmap string Customer.t) :=
  match f with
  | FileNotFound => mret cs
  | Undecodable => Raise JSONDecodeError
  | Content customer_data => load_customers customer_data cs
  end.

(** The second [try] block. *)
Definition read_accounts (f : file AccountDict.t)
    (acs : gmap string Account) : result (gmap string Account) :=
  match f with
  | FileNotFound => mret acs
  | Undecodable => Raise JSONDecodeError
  | Content account_data => load_accounts account_data acs
  end.

Definition _load_data (self : t) (fs : files) : result t :=
  cs ← read_customers (customer_file fs) (_customers self);
  acs ← read_accounts (account_file fs) (_accounts self);
  mret (mk cs acs).

(** [Bank()]: both dictionaries start empty, then [_load_data] runs. *)
Definition __init__ (fs : files) : result t :=
  _load_data (mk ∅ ∅) fs.

(** *** Saving *)

(** Python lists the values of a dictionary in insertion order, [values] in
    the order of the keys.  The values of a registry have distinct keys, so
    the order of the records has no effect on what a later load builds. *)
Definition _save_data (w : world) : world :=
  mk_world (bank w)
    (mk_files (Content (Customer.to_dict <$> values (customers w)))
              (Content (Account.to_dict <$> values (accounts w)))).

(** *** Operations *)

Definition add_customer (w : world) (customer : Customer.t) : bool * world :=
  match customers w !! Customer.customer_id customer with
  | Some _ => (false, w)
  | None =>
      (true, _save_data
               (with_customers w (<[Customer.customer_id customer := customer]> (customers w))))
  end.

Definition remove_customer (w : world) (customer_id : string) : bool * world :=
  match customers w !! customer_id with
  | Some customer =>
      if bool_decide (Customer.account_numbers customer = [])
      then (true, _save_data (with_customers w (delete customer_id (customers w))))
      else (false, w)
  | None => (false, w)
  end.

(** [uuid4] is the string that [str(uuid.uuid4())] returns in this call. *)
Definition create_account (w : world) (customer_id account_type : string)
    (initial_balance : Qc) (kw : kwargs) (uuid4 : string) : option Account * world :=
  match customers w !! customer_id with
  | None => (None, w)
  | Some customer =>
      let account_number := uuid4 in
      let created :=
        if bool_decide (account_type = "savings") then
          Some (Savings (SavingsAccount.mk account_number customer_id initial_balance
                  (default default_interest_rate (kw_interest_rate kw))))
        else if bool_decide (account_type = "checking") then
          Some (Checking (CheckingAccount.mk account_number customer_id initial_balance
                  (default default_overdraft_limit (kw_overdraft_limit kw))))
        else None in
      match created with
      | None => (None, w)
      | Some account =>
          let w1 := with_accounts w (<[Account.account_number account := account]> (accounts w)) in
          let w2 := with_customers w1
                      (<[customer_id :=
                           Customer.add_account_number customer (Account.account_number account)]>
                         (customers w1)) in
          (Some account, _save_data w2)
      end
  end.

Definition deposit (w : world) (account_number : string) (amount : Qc) : bool * world :=
  match accounts w !! account_number with
  | Some account =>
      let '(ok, account') := Account.deposit account amount in
      if ok
      then (true, _save_data (with_accounts w (<[account_number := account']> (accounts w))))
      else (false, w)
  | None => (false, w)
  end.

Definition withdraw (w : world) (account_number : string) (amount : Qc) : bool * world :=
  match accounts w !! account_number with
  | Some account =>
      let '(ok, account') := Account.withdraw account amount in
      if ok
      then (true, _save_data (with_accounts w (<[account_number := account']> (accounts w))))
      else (false, w)
  | None => (false, w)
  end.

(** [from_acc] and [to_acc] are the objects stored under the two numbers.
    They are one and the same object when the two numbers are equal: the
    deposit then acts on the object the withdrawal has just changed. *)
Definition transfer_funds (w : world) (from_acc_num to_acc_num : string)
    (amount : Qc) : bool * world :=
  match accounts w !! from_acc_num, accounts w !! to_acc_num with
  | Some from_acc, Some to_acc =>
      let '(withdrawn, from_acc1) := Account.withdraw from_acc amount in
      if withdrawn then
        let w1 := with_accounts w (<[from_acc_num := from_acc1]> (accounts w)) in
        let to_acc := if bool_decide (to_acc_num = from_acc_num) then from_acc1 else to_acc in
        let '(deposited, to_acc1) := Account.deposit to_acc amount in
        if deposited
        then (true, _save_data (with_accounts w1 (<[to_acc_num := to_acc1]> (accounts w1))))
        else
          (* from_acc.deposit(amount)  # rollback *)
          let '(_, from_acc2) := Account.deposit from_acc1 amount in
          (false, with_accounts w1 (<[from_acc_num := from_acc2]> (accounts w1)))
      else (false, w)
  | _, _ => (false, w)
  end.

Definition get_customer_accounts (w : world) (customer_id : string) : list Account :=
  match customers w !! customer_id with
  | None => []
  | Some customer => omap (λ acc_num, accounts w !! acc_num) (Customer.account_numbers customer)
  end.

(** The body of the loop of [apply_all_interest]. *)
Definition apply_interest_if_savings (account : Account) : Account :=
  match account with
  | Savings s => Savings (SavingsAccount.apply_interest s)
  | Checking c => Checking c
  end.

Definition apply_all_interest (w : world) : world :=
  _save_data (with_accounts w (apply_interest_if_savings <$> accounts w)).

End Bank.

(** ** Ledger states

    The states a bank can be in: it is constructed from some files, and then
    any sequence of calls is made, on the bank or directly on a customer or
    account object that the bank stores (the caller of [add_customer] keeps
    the customer object, [create_account] and [get_customer_accounts] return
    account objects). *)

Inductive op :=
| AddCustomer (customer_id name address : string) (calls : list customer_call)
| RemoveCustomer (customer_id : string)
| CreateAccount (customer_id account_type : string) (initial_balance : Qc)
    (kw : kwargs) (uuid4 : string)
| BankDeposit (account_number : string) (amount : Qc)
| BankWithdraw (account_number : string) (amount : Qc)
| TransferFunds (from_acc_num to_acc_num : string) (amount : Qc)
| ApplyAllInterest
| OnCustomer (customer_id : string) (k : customer_call)
| OnAccount (account_number : string) (k : call)
| SetInterestRate (account_number : string) (value : Qc)
| SetOverdraftLimit (account_number : string) (value : Qc).

(** The setters, on the object of the class that has the property. *)
Definition set_interest_rate (value : Qc) (a : Account) : Account :=
  match a with
  | Savings s => Savings (SavingsAccount.set_interest_rate s value)
  | Checking c => Checking c
  end.

Definition set_overdraft_limit (value : Qc) (a : Account) : Account :=
  match a with
  | Savings s => Savings s
  | Checking c => Checking (CheckingAccount.set_overdraft_limit c value)
  end.

Definition exec (w : Bank.world) (o : op) : Bank.world :=
  match o with
  | AddCustomer customer_id name address calls =>
      (Bank.add_customer w
         (foldl run_customer_call (Customer.__init__ customer_id name address) calls)).2
  | RemoveCustomer customer_id => (Bank.remove_customer w customer_id).2
  | CreateAccount customer_id account_type initial_balance kw uuid4 =>
      (Bank.create_account w customer_id account_type initial_balance kw uuid4).2
  | BankDeposit account_number amount => (Bank.deposit w account_number amount).2
  | BankWithdraw account_number amount => (Bank.withdraw w account_number amount).2
  | TransferFunds from_acc_num to_acc_num amount =>
      (Bank.transfer_funds w from_acc_num to_acc_num amount).2
  | ApplyAllInterest => Bank.apply_all_interest w
  | OnCustomer customer_id k =>
      Bank.with_customers w (alter (λ c, run_customer_call c k) customer_id (Bank.customers w))
  | OnAccount account_number k =>
      Bank.with_accounts w (alter (λ a, run_call a k) account_number (Bank.accounts w))
  | SetInterestRate account_number value =>
      Bank.with_accounts w (alter (set_interest_rate value) account_number (Bank.accounts w))
  | SetOverdraftLimit account_number value =>
      Bank.with_accounts w (alter (set_overdraft_limit value) account_number (Bank.accounts w))
  end.

Definition reachable (w : Bank.world) : Prop :=
  ∃ (fs : Bank.files) (b : Bank.t) (ops : list op),
    Bank.__init__ fs = Ok b ∧ w = foldl exec (Bank.mk_world b fs) ops.

(** Every object is stored under its own identifier, and a customer lists no
    account number twice. *)
Definition customers_keyed (cs : gmap string Customer.t) : Prop :=
  map_Forall (λ k c, Customer.customer_id c = k ∧ NoDup (Customer.account_numbers c)) cs.

Definition accounts_keyed (acs : gmap string Account) : Prop :=
  map_Forall (λ k a, Account.account_number a = k) acs.

Definition keyed (b : Bank.t) : Prop :=
  customers_keyed (Bank._customers b) ∧ accounts_keyed (Bank._accounts b).

(** [d[key(v)] = v]: how both dictionaries are filled. *)
Definition store_by {V} (key : V → string) (d : gmap string V) (v : V) : gmap string V :=
  <[key v := v]> d.

(** ** Concrete data *)

Definition savings_100 : Account :=
  Savings (SavingsAccount.mk "acc-s" "C1" (Q2Qc 100) (Q2Qc 0.05)).

Definition checking_0 : Account :=
  Checking (CheckingAccount.mk "acc-c" "C1" 0 0).

Definition checking_50 : Account :=
  Checking (CheckingAccount.mk "acc-1" "C1" (Q2Qc 50) (Q2Qc 20)).

Definition no_files : Bank.files := Bank.mk_files FileNotFound FileNotFound.

(** One customer with a savings account holding 100 and a checking account
    holding 0 without overdraft. *)
Definition small_bank : Bank.world :=
  Bank.mk_world
    (Bank.mk {[ "C1" := Customer.mk "C1" "Ada" "1 Main St" ["acc-s"; "acc-c"] ]}
             {[ "acc-s" := savings_100; "acc-c" := checking_0 ]})
    no_files.

(** A session: two customers are added, accounts are created, money moves,
    interest is applied, and one customer object is changed by its holder. *)
Definition session : list op :=
  [ AddCustomer "C1" "Ada" "1 Main St" [];
    AddCustomer "C2" "Bob" "2 Side St" [AddAccountNumber "ghost"];
    CreateAccount "C1" "savings" (Q2Qc 100) (mk_kwargs (Some (Q2Qc 0.05)) None) "acc-s";
    CreateAccount "C1" "checking" (Q2Qc 50) (mk_kwargs None (Some (Q2Qc 20))) "acc-c";
    CreateAccount "C2" "savings" (- Q2Qc 7) (mk_kwargs None None) "acc-b";
    BankDeposit "acc-c" (Q2Qc 12.5);
    TransferFunds "acc-s" "acc-c" (Q2Qc 30);
    TransferFunds "acc-c" "acc-s" (- Q2Qc 5);
    ApplyAllInterest;
    OnCustomer "C2" (SetAddress "3 Hill Rd");
    RemoveCustomer "C2" ].

Definition after_session : Bank.world :=
  foldl exec (Bank.mk_world (Bank.mk ∅ ∅) no_files) session.

(** ** Notions used in the further properties *)


Definition present {A} (field : option A) : bool :=
  match field with Some _ => true | None => false end.


Definition recognized (acc_type : string) : bool :=
  bool_decide (acc_type = "savings") || bool_decide (acc_type = "checking").



(** The calls made on the bank itself, as opposed to the calls made on an
    object that the bank stores. *)
Definition is_bank_call (o : op) : bool :=
  match o with
  | OnCustomer _ _ | OnAccount _ _ | SetInterestRate _ _ | SetOverdraftLimit _ _ => false
  | _ => true
  end.

(** What a call on the bank returns, as a truth value: [True], or an account
    for [create_account]; [apply_all_interest] returns nothing and always
    goes through. *)
Definition succeeds (w : Bank.world) (o : op) : bool :=
  match o with
  | AddCustomer customer_id name address calls =>
      (Bank.add_customer w
         (foldl run_customer_call (Customer.__init__ customer_id name address) calls)).1
  | RemoveCustomer customer_id => (Bank.remove_customer w customer_id).1
  | CreateAccount customer_id account_type initial_balance kw uuid4 =>
      present (Bank.create_account w customer_id account_type initial_balance kw uuid4).1
  | BankDeposit account_number amount => (Bank.deposit w account_number amount).1
  | BankWithdraw account_number amount => (Bank.withdraw w account_number amount).1
  | TransferFunds from_acc_num to_acc_num amount =>
      (Bank.transfer_funds w from_acc_num to_acc_num amount).1
  | ApplyAllInterest => true
  | _ => false
  end.

(** Every registered account is held by a registered customer who lists its
    number. *)
Definition owned (b : Bank.t) : Prop :=
  map_Forall
    (λ n a, ∃ c, Bank._customers b !! Account.account_holder_id a = Some c
                 ∧ n ∈ Customer.account_numbers c)
    (Bank._accounts b).



(** The records of [accounts.json] that the loop passes over with
    [continue]: their type is present and is not a known one. *)
Definition skipped (acc : AccountDict.t) : bool :=
  match AccountDict.type acc with
  | Some acc_type => negb (recognized acc_type)
  | None => false
  end.



(** * Properties *)

(** ** Arithmetic on [Qc] *)

Lemma Qc_sub_add (b x : Qc) : b - x + x = b.
Proof. ring. Qed.





Lemma Qc_sub_neg (b x : Qc) : x < 0 → b < b - x.
Proof.
  intros Hx. apply (Qcplus_lt_mono_r _ _ x).
  rewrite Qc_sub_add.
  apply Qclt_le_trans with (b + 0).
  - by apply Qcplus_lt_mono_l.
  - by rewrite Qcplus_0_r.
Qed.

(** ** Withdrawal policies *)



(** ** The balance floor is an invariant *)










(** ** Deposits and withdrawals on an account of either class *)

Lemma balance_set_balance (a : Account) (b : Qc) :
  Account.balance (Account.set_balance a b) = b.
Proof. by destruct a. Qed.



Lemma account_number_set_balance (a : Account) (b : Qc) :
  Account.account_number (Account.set_balance a b) = Account.account_number a.
Proof. by destruct a. Qed.

Lemma deposit_eq (a : Account) (amount : Qc) :
  Account.deposit a amount =
    if bool_decide (0 < amount)
    then (true, Account.set_balance a (Account.balance a + amount))
    else (false, a).
Proof.
  destruct a; cbn [Account.deposit];
    unfold SavingsAccount.deposit, CheckingAccount.deposit; by case_bool_decide.
Qed.

Lemma withdraw_cases (a : Account) (amount : Qc) :
  Account.withdraw a amount = (true, Account.set_balance a (Account.balance a - amount))
  ∨ Account.withdraw a amount = (false, a).
Proof.
  destruct a; cbn [Account.withdraw];
    unfold SavingsAccount.withdraw, CheckingAccount.withdraw;
    repeat case_bool_decide; cbn; auto.
Qed.

(** ** Transfers *)




(** The scenario of the specification: 30 moved from a savings account with
    100 to a checking account with 0. *)
Example transfer_30 :
  (Bank.transfer_funds small_bank "acc-s" "acc-c" (Q2Qc 30)).1 = true
  ∧ Account.balance
      <$> Bank.accounts (Bank.transfer_funds small_bank "acc-s" "acc-c" (Q2Qc 30)).2 !! "acc-s"
    = Some (Q2Qc 70)
  ∧ Account.balance
      <$> Bank.accounts (Bank.transfer_funds small_bank "acc-s" "acc-c" (Q2Qc 30)).2 !! "acc-c"
    = Some (Q2Qc 30).
Proof. by vm_compute. Qed.



(** A transfer that returns [False] leaves the bank as it was when the amount
    is strictly positive: the deposit into the destination cannot fail then,
    so the only failures are a missing account and a refused withdrawal. *)
Lemma transfer_failure_pos (w w' : Bank.world) (A B : string) (amount : Qc) :
  0 < amount →
  Bank.transfer_funds w A B amount = (false, w') → w' = w.
Proof.
  intros Hpos. unfold Bank.transfer_funds.
  destruct (Bank.accounts w !! A) as [a |]; [| by intros [= <-]].
  destruct (Bank.accounts w !! B) as [b |]; [| by intros [= <-]].
  destruct (withdraw_cases a amount) as [-> | ->]; [| by intros [= <-]].
  by rewrite deposit_eq, bool_decide_eq_true_2.
Qed.

(** In general the source either keeps its balance or, for an amount that is
    not positive, ends at its balance minus the amount: the rollback
    [from_acc.deposit(amount)] is refused for the same reason as the deposit
    into the destination. *)
Lemma transfer_failure_source (w w' : Bank.world) (A B : string) (a : Account) (amount : Qc) :
  Bank.accounts w !! A = Some a →
  Bank.transfer_funds w A B amount = (false, w') →
  ∃ a', Bank.accounts w' !! A = Some a'
    ∧ (a' = a ∨ (amount ≤ 0 ∧ Account.balance a' = Account.balance a - amount)).
Proof.
  intros Ha. unfold Bank.transfer_funds. rewrite Ha.
  destruct (Bank.accounts w !! B) as [b |]; [| intros [= <-]; eauto].
  destruct (withdraw_cases a amount) as [-> | ->]; [| intros [= <-]; eauto].
  rewrite !deposit_eq. case_bool_decide as Hpos; [done |].
  intros [= <-].
  exists (Account.set_balance a (Account.balance a - amount)).
  unfold Bank.accounts, Bank.with_accounts; cbn.
  rewrite lookup_insert_eq, balance_set_balance.
  split; [done |]. right. split; [by apply Qcnot_lt_le | done].
Qed.

(** A checking account as the source of a transfer of a negative amount
    that its floor allows: the call returns [False] and the source has gained
    the absolute value of the amount. *)
Lemma transfer_negative_amount (w : Bank.world) (A B : string) (c : CheckingAccount.t)
    (b : Account) (amount : Qc) :
  Bank.accounts w !! A = Some (Checking c) →
  Bank.accounts w !! B = Some b →
  amount < 0 →
  - CheckingAccount.overdraft_limit c ≤ CheckingAccount.balance c - amount →
  (Bank.transfer_funds w A B amount).1 = false
  ∧ ∃ a', Bank.accounts (Bank.transfer_funds w A B amount).2 !! A = Some a'
      ∧ Account.balance a' = CheckingAccount.balance c - amount
      ∧ CheckingAccount.balance c < Account.balance a'.
Proof.
  intros Ha Hb Hneg Hfloor. unfold Bank.transfer_funds. rewrite Ha, Hb.
  cbn [Account.withdraw]. unfold CheckingAccount.withdraw.
  rewrite bool_decide_eq_true_2 by done. cbn [prod_map fst snd id].
  rewrite !deposit_eq, !bool_decide_eq_false_2
    by (apply Qcle_not_lt; by apply Qclt_le_weak).
  cbn [fst snd]. split; [done |].
  eexists. unfold Bank.accounts, Bank.with_accounts; cbn.
  rewrite lookup_insert_eq. split; [done |]. cbn.
  split; [done | by apply Qc_sub_neg].
Qed.

(** C1, evaluated.  A checking account with balance 0 and no overdraft is the
    source of a transfer of -5.  [withdraw(-5)] is accepted and raises the
    balance to 5, [deposit(-5)] on the destination is refused, the rollback
    [deposit(-5)] on the source is refused as well: the call returns [False]
    and the source holds 5 instead of 0. *)
Theorem transfer_failure_changes_source :
  Account.balance <$> Bank.accounts small_bank !! "acc-c" = Some 0
  ∧ (Bank.transfer_funds small_bank "acc-c" "acc-s" (- Q2Qc 5)).1 = false
  ∧ Account.balance
      <$> Bank.accounts (Bank.transfer_funds small_bank "acc-c" "acc-s" (- Q2Qc 5)).2 !! "acc-c"
    = Some (Q2Qc 5).
Proof. by vm_compute. Qed.

(** ** Interest *)


(** The scenario of the specification: 100 at a rate of 0.05 becomes 105. *)
Example interest_105 :
  Account.balance <$> Bank.accounts (Bank.apply_all_interest small_bank) !! "acc-s"
  = Some (Q2Qc 105).
Proof. by vm_compute. Qed.

(** The scenario of the specification: a checking account with 50 and an
    overdraft limit of 20 accepts a withdrawal of 60 and then refuses one of
    15. *)
Example overdraft_scenario :
  Account.withdraw checking_50 (Q2Qc 60)
  = (true, Account.set_balance checking_50 (- Q2Qc 10))
  ∧ Account.withdraw (Account.set_balance checking_50 (- Q2Qc 10)) (Q2Qc 15)
    = (false, Account.set_balance checking_50 (- Q2Qc 10)).
Proof. by vm_compute. Qed.

(** ** Account creation *)

(** C9. [create_account] does not look at the initial balance.  For a
    registered customer and the type ['savings'] or ['checking'] it returns
    an account of that class, registered under the generated number, owned by
    the customer and holding the given balance, whatever that balance is; the
    account breaks the floor of its class when the balance is below it. *)
Theorem create_account_any_balance (w : Bank.world) (customer_id account_type : string)
    (initial_balance : Qc) (kw : kwargs) (uuid4 : string) :
  is_Some (Bank.customers w !! customer_id) →
  account_type = "savings" ∨ account_type = "checking" →
  ∃ a,
    (Bank.create_account w customer_id account_type initial_balance kw uuid4).1 = Some a
    ∧ Bank.accounts
        (Bank.create_account w customer_id account_type initial_balance kw uuid4).2 !! uuid4
      = Some a
    ∧ Account.balance a = initial_balance
    ∧ Account.account_number a = uuid4
    ∧ Account.account_holder_id a = customer_id
    ∧ Account.is_savings a = bool_decide (account_type = "savings")
    ∧ (account_type = "savings" → initial_balance < 0 → ¬ Account.floor_ok a)
    ∧ (account_type = "checking" →
       initial_balance < - default default_overdraft_limit (kw_overdraft_limit kw) →
       ¬ Account.floor_ok a).
Proof.
  intros [c Hc] Hty. unfold Bank.create_account. rewrite Hc.
  destruct Hty as [-> | ->].
  - rewrite !bool_decide_eq_true_2 by done.
    eexists; split; [reflexivity |]; cbn.
    unfold Bank.accounts, Bank.with_accounts; cbn.
    rewrite lookup_insert_eq. split_and!; try done.
    intros _ Hlt. by apply Qclt_nge.
  - rewrite (bool_decide_eq_false_2 ("checking" = "savings")) by done.
    rewrite !bool_decide_eq_true_2 by done.
    eexists; split; [reflexivity |]; cbn.
    unfold Bank.accounts, Bank.with_accounts; cbn.
    rewrite lookup_insert_eq. split_and!; try done.
    intros _ Hlt. by apply Qclt_nge.
Qed.

Lemma create_account_any_balance_witness :
  is_Some (Bank.customers small_bank !! "C1")
  ∧ ("savings" = "savings" ∨ "savings" = "checking")
  ∧ ∃ a,
      (Bank.create_account small_bank "C1" "savings" (- Q2Qc 50)
         (mk_kwargs None None) "acc-new").1 = Some a
      ∧ Bank.accounts
          (Bank.create_account small_bank "C1" "savings" (- Q2Qc 50)
             (mk_kwargs None None) "acc-new").2 !! "acc-new"
        = Some a
      ∧ Account.balance a = - Q2Qc 50
      ∧ Account.account_number a = "acc-new"
      ∧ Account.account_holder_id a = "C1"
      ∧ Account.is_savings a = bool_decide ("savings" = "savings")
      ∧ ("savings" = "savings" → - Q2Qc 50 < 0 → ¬ Account.floor_ok a)
      ∧ ("savings" = "checking" →
         - Q2Qc 50 < - default default_overdraft_limit (kw_overdraft_limit (mk_kwargs None None)) →
         ¬ Account.floor_ok a).
Proof.
  split; [eexists; by vm_compute |]. split; [by left |].
  apply (create_account_any_balance small_bank "C1" "savings" (- Q2Qc 50)
           (mk_kwargs None None) "acc-new"); [eexists; by vm_compute | by left].
Defined.

(** ** Construction from the files *)

(** C8, where it fails.  A customer file or an account file that exists and
    does not decode makes the constructor raise: only [FileNotFoundError] is
    caught. *)
Lemma init_undecodable_raises :
  Bank.customer_file (Bank.mk_files Undecodable FileNotFound) = Undecodable
  ∧ Bank.__init__ (Bank.mk_files Undecodable FileNotFound) = Raise JSONDecodeError
  ∧ Bank.account_file (Bank.mk_files FileNotFound Undecodable) = Undecodable
  ∧ Bank.__init__ (Bank.mk_files FileNotFound Undecodable) = Raise JSONDecodeError.
Proof. done. Qed.

(** C8, amended.  A store that is absent leaves its registry empty and is not
    an error: with the customer file absent the constructed bank has no
    customer and construction succeeds as soon as the account file loads;
    likewise with the account file absent; with both absent the bank is
    constructed empty. *)
Theorem init_absent_store (fs : Bank.files) :
  (Bank.customer_file fs = FileNotFound →
     (∀ b, Bank.__init__ fs = Ok b → Bank._customers b = ∅)
     ∧ (∀ acs, Bank.read_accounts (Bank.account_file fs) ∅ = Ok acs →
          Bank.__init__ fs = Ok (Bank.mk ∅ acs)))
  ∧ (Bank.account_file fs = FileNotFound →
     (∀ b, Bank.__init__ fs = Ok b → Bank._accounts b = ∅)
     ∧ (∀ cs, Bank.read_customers (Bank.customer_file fs) ∅ = Ok cs →
          Bank.__init__ fs = Ok (Bank.mk cs ∅)))
  ∧ (Bank.customer_file fs = FileNotFound → Bank.account_file fs = FileNotFound →
     Bank.__init__ fs = Ok (Bank.mk ∅ ∅)).
Proof.
  unfold Bank.__init__, Bank._load_data. cbn [Bank._customers Bank._accounts].
  split_and!.
  - intros ->; cbn. split.
    + intros b. destruct (Bank.read_accounts _ _); cbn; [by intros [= <-] | done].
    + by intros acs ->.
  - intros ->. split.
    + intros b. destruct (Bank.read_customers _ _); cbn; [by intros [= <-] | done].
    + by intros cs ->.
  - by intros -> ->.
Qed.

Lemma init_absent_store_witness :
  Bank.customer_file no_files = FileNotFound
  ∧ Bank.account_file no_files = FileNotFound
  ∧ Bank.__init__ no_files = Ok (Bank.mk ∅ ∅).
Proof.
  split; [reflexivity |]. split; [reflexivity |].
  destruct (init_absent_store no_files) as (_ & _ & Hboth).
  apply Hboth; reflexivity.
Defined.

(** ** Every object is stored under its own identifier *)

Lemma map_Forall_alter_2 {V} (P : string → V → Prop) (f : V → V) (k : string)
    (m : gmap string V) :
  (∀ v, P k v → P k (f v)) → map_Forall P m → map_Forall P (alter f k m).
Proof.
  intros Hf Hm j y. rewrite lookup_alter_Some.
  intros [(-> & v & Hv & ->) | [_ Hj]]; [apply Hf |]; by eapply Hm.
Qed.

Lemma list_remove_subseteq (x : string) (l : list string) :
  Customer.list_remove x l ⊆ l.
Proof.
  induction l as [| y l IH]; cbn; [done |].
  case_bool_decide; intros z; rewrite !elem_of_cons; [by right |].
  intros [-> | Hz]; [by left | right; by apply IH].
Qed.

Lemma list_remove_NoDup (x : string) (l : list string) :
  NoDup l → NoDup (Customer.list_remove x l).
Proof.
  induction 1 as [| y l Hy Hl IH]; cbn; [constructor |].
  case_bool_decide; [done |].
  constructor; [| done]. intros Hin. by apply list_remove_subseteq in Hin.
Qed.

Lemma run_customer_call_id (c : Customer.t) (k : customer_call) :
  Customer.customer_id (run_customer_call c k) = Customer.customer_id c.
Proof.
  destruct k; cbn;
    unfold Customer.add_account_number, Customer.remove_account_number;
    try case_bool_decide; done.
Qed.

Lemma run_customer_call_NoDup (c : Customer.t) (k : customer_call) :
  NoDup (Customer.account_numbers c) →
  NoDup (Customer.account_numbers (run_customer_call c k)).
Proof.
  intros Hc. destruct k; cbn;
    unfold Customer.add_account_number, Customer.remove_account_number;
    try case_bool_decide; cbn; try done.
  - apply NoDup_app. split_and!; [done | | apply NoDup_singleton].
    intros x Hx ->%list_elem_of_singleton. done.
  - by apply list_remove_NoDup.
Qed.

Lemma run_customer_calls_id (c : Customer.t) (ks : list customer_call) :
  Customer.customer_id (foldl run_customer_call c ks) = Customer.customer_id c.
Proof.
  revert c. induction ks as [| k ks IH]; intros c; cbn; [done |].
  by rewrite IH, run_customer_call_id.
Qed.

Lemma run_customer_calls_NoDup (c : Customer.t) (ks : list customer_call) :
  NoDup (Customer.account_numbers c) →
  NoDup (Customer.account_numbers (foldl run_customer_call c ks)).
Proof.
  revert c. induction ks as [| k ks IH]; intros c Hc; cbn; [done |].
  by apply IH, run_customer_call_NoDup.
Qed.

Lemma add_account_number_id (c : Customer.t) (n : string) :
  Customer.customer_id (Customer.add_account_number c n) = Customer.customer_id c.
Proof. apply (run_customer_call_id c (AddAccountNumber n)). Qed.

Lemma add_account_number_NoDup (c : Customer.t) (n : string) :
  NoDup (Customer.account_numbers c) →
  NoDup (Customer.account_numbers (Customer.add_account_number c n)).
Proof. apply (run_customer_call_NoDup c (AddAccountNumber n)). Qed.

Lemma add_account_numbers_id (c : Customer.t) (ns : list string) :
  Customer.customer_id (foldl Customer.add_account_number c ns) = Customer.customer_id c.
Proof.
  revert c. induction ns as [| n ns IH]; intros c; cbn; [done |].
  by rewrite IH, add_account_number_id.
Qed.

Lemma add_account_numbers_NoDup (c : Customer.t) (ns : list string) :
  NoDup (Customer.account_numbers c) →
  NoDup (Customer.account_numbers (foldl Customer.add_account_number c ns)).
Proof.
  revert c. induction ns as [| n ns IH]; intros c Hc; cbn; [done |].
  by apply IH, add_account_number_NoDup.
Qed.

Lemma load_customer_NoDup (cust : CustomerDict.t) (c : Customer.t) :
  Bank.load_customer cust = Ok c → NoDup (Customer.account_numbers c).
Proof.
  unfold Bank.load_customer.
  destruct (CustomerDict.customer_id cust) as [cid |]; [| done].
  destruct (CustomerDict.name cust) as [name |]; [| done].
  destruct (CustomerDict.address cust) as [address |]; [| done].
  cbn. intros [= <-]. apply add_account_numbers_NoDup. constructor.
Qed.

Lemma load_customers_keyed (customer_data : list CustomerDict.t)
    (cs cs' : gmap string Customer.t) :
  customers_keyed cs →
  Bank.load_customers customer_data cs = Ok cs' →
  customers_keyed cs'.
Proof.
  revert cs. induction customer_data as [| cust rest IH]; intros cs Hcs; cbn.
  - by intros [= <-].
  - destruct (Bank.load_customer cust) as [c | e] eqn:Hc; [| done]. cbn.
    apply IH, map_Forall_insert_2; [| done].
    by apply load_customer_NoDup in Hc.
Qed.

Lemma load_account_keyed (acc : AccountDict.t) (a : Account) :
  Bank.load_account acc = Ok (Some a) →
  AccountDict.account_number acc = Some (Account.account_number a).
Proof.
  unfold Bank.load_account.
  destruct (AccountDict.type acc) as [ty |]; [| done]. cbn.
  destruct (AccountDict.account_number acc) as [n |],
           (AccountDict.account_holder_id acc) as [h |];
    repeat case_bool_decide; cbn; try done; by intros [= <-].
Qed.

Lemma load_accounts_keyed (account_data : list AccountDict.t)
    (acs acs' : gmap string Account) :
  accounts_keyed acs →
  Bank.load_accounts account_data acs = Ok acs' →
  accounts_keyed acs'.
Proof.
  revert acs. induction account_data as [| acc rest IH]; intros acs Hacs; cbn.
  - by intros [= <-].
  - destruct (Bank.load_account acc) as [[a |] | e]; cbn; [| by apply IH | done].
    by apply IH, map_Forall_insert_2.
Qed.

Lemma init_keyed (fs : Bank.files) (b : Bank.t) :
  Bank.__init__ fs = Ok b → keyed b.
Proof.
  unfold Bank.__init__, Bank._load_data. cbn [Bank._customers Bank._accounts].
  destruct (Bank.read_customers _ _) as [cs | e] eqn:Hcs; [| done]. cbn.
  destruct (Bank.read_accounts _ _) as [acs | e] eqn:Hacs; [| done]. cbn.
  intros [= <-]. split; cbn.
  - destruct (Bank.customer_file fs); cbn in Hcs; [| done |].
    + injection Hcs as <-. apply map_Forall_empty.
    + eapply load_customers_keyed; [apply map_Forall_empty | done].
  - destruct (Bank.account_file fs); cbn in Hacs; [| done |].
    + injection Hacs as <-. apply map_Forall_empty.
    + eapply load_accounts_keyed; [apply map_Forall_empty | done].
Qed.

(** The calls on a stored account keep its number. *)
Lemma deposit_account_number (a : Account) (amount : Qc) :
  Account.account_number (Account.deposit a amount).2 = Account.account_number a.
Proof.
  rewrite deposit_eq. case_bool_decide; [apply account_number_set_balance | done].
Qed.

Lemma withdraw_account_number (a : Account) (amount : Qc) :
  Account.account_number (Account.withdraw a amount).2 = Account.account_number a.
Proof.
  destruct (withdraw_cases a amount) as [-> | ->];
    [apply account_number_set_balance | done].
Qed.

Lemma run_call_account_number (a : Account) (k : call) :
  Account.account_number (run_call a k) = Account.account_number a.
Proof.
  destruct k; [apply deposit_account_number | apply withdraw_account_number].
Qed.

Lemma accounts_keyed_update (acs : gmap string Account) (k : string) (a a' : Account) :
  accounts_keyed acs → acs !! k = Some a →
  Account.account_number a' = Account.account_number a →
  accounts_keyed (<[k := a']> acs).
Proof.
  intros Hacs Ha Hnum. apply map_Forall_insert_2; [| done].
  rewrite Hnum. by apply (Hacs k a).
Qed.

Lemma accounts_keyed_alter (acs : gmap string Account) (k : string) (f : Account → Account) :
  (∀ a, Account.account_number (f a) = Account.account_number a) →
  accounts_keyed acs → accounts_keyed (alter f k acs).
Proof.
  intros Hf. apply map_Forall_alter_2. intros a <-. apply Hf.
Qed.

Lemma add_customer_keyed (w : Bank.world) (c : Customer.t) :
  NoDup (Customer.account_numbers c) →
  keyed (Bank.bank w) → keyed (Bank.bank (Bank.add_customer w c).2).
Proof.
  intros Hc [Hcs Hacs]. unfold Bank.add_customer.
  destruct (Bank.customers w !! Customer.customer_id c); [done |].
  split; [| done]. by apply map_Forall_insert_2.
Qed.

Lemma remove_customer_keyed (w : Bank.world) (customer_id : string) :
  keyed (Bank.bank w) → keyed (Bank.bank (Bank.remove_customer w customer_id).2).
Proof.
  intros [Hcs Hacs]. unfold Bank.remove_customer.
  destruct (Bank.customers w !! customer_id); [| done].
  case_bool_decide; [| done].
  split; [| done]. by apply map_Forall_delete.
Qed.

Lemma create_account_keyed (w : Bank.world) (customer_id account_type : string)
    (initial_balance : Qc) (kw : kwargs) (uuid4 : string) :
  keyed (Bank.bank w) →
  keyed (Bank.bank
           (Bank.create_account w customer_id account_type initial_balance kw uuid4).2).
Proof.
  intros [Hcs Hacs]. unfold Bank.create_account.
  destruct (Bank.customers w !! customer_id) as [c |] eqn:Hc; [| done].
  destruct (Hcs _ _ Hc) as [Hid Hnd].
  assert (∀ n, customers_keyed
                 (<[customer_id := Customer.add_account_number c n]> (Bank.customers w)))
    as Hcs'.
  { intros n. apply map_Forall_insert_2; [| done]. split.
    - by rewrite add_account_number_id.
    - by apply add_account_number_NoDup. }
  repeat case_bool_decide; cbn; try done;
    (split; [apply Hcs' | by apply map_Forall_insert_2]).
Qed.

Lemma deposit_keyed (w : Bank.world) (account_number : string) (amount : Qc) :
  keyed (Bank.bank w) → keyed (Bank.bank (Bank.deposit w account_number amount).2).
Proof.
  intros [Hcs Hacs]. unfold Bank.deposit.
  destruct (Bank.accounts w !! account_number) as [a |] eqn:Ha; [| done].
  rewrite deposit_eq. case_bool_decide; [| done].
  split; [done |]. cbn.
  eapply accounts_keyed_update; [done.. | apply account_number_set_balance].
Qed.

Lemma withdraw_keyed (w : Bank.world) (account_number : string) (amount : Qc) :
  keyed (Bank.bank w) → keyed (Bank.bank (Bank.withdraw w account_number amount).2).
Proof.
  intros [Hcs Hacs]. unfold Bank.withdraw.
  destruct (Bank.accounts w !! account_number) as [a |] eqn:Ha; [| done].
  destruct (withdraw_cases a amount) as [-> | ->]; [| done].
  split; [done |]. cbn.
  eapply accounts_keyed_update; [done.. | apply account_number_set_balance].
Qed.

Lemma transfer_funds_keyed (w : Bank.world) (A B : string) (amount : Qc) :
  keyed (Bank.bank w) → keyed (Bank.bank (Bank.transfer_funds w A B amount).2).
Proof.
  intros [Hcs Hacs]. unfold Bank.transfer_funds.
  destruct (Bank.accounts w !! A) as [a |] eqn:Ha; [| done].
  destruct (Bank.accounts w !! B) as [b |] eqn:Hb; [| done].
  destruct (withdraw_cases a amount) as [-> | ->]; [| done].
  assert (accounts_keyed
            (<[A := Account.set_balance a (Account.balance a - amount)]> (Bank.accounts w)))
    as Hacs1.
  { eapply accounts_keyed_update; [done.. | apply account_number_set_balance]. }
  rewrite !deposit_eq. case_bool_decide; (split; [done |]); cbn.
  - case_bool_decide as HAB.
    + subst B. eapply accounts_keyed_update; [done | apply lookup_insert_eq |].
      apply account_number_set_balance.
    + eapply accounts_keyed_update; [done | by rewrite lookup_insert_ne |].
      apply account_number_set_balance.
  - eapply accounts_keyed_update; [done | apply lookup_insert_eq | done].
Qed.

Lemma apply_all_interest_keyed (w : Bank.world) :
  keyed (Bank.bank w) → keyed (Bank.bank (Bank.apply_all_interest w)).
Proof.
  intros [Hcs Hacs]. split; [done |]. cbn.
  apply map_Forall_fmap. intros k a Ha. cbn.
  rewrite <- (Hacs k a Ha). by destruct a.
Qed.

Lemma exec_keyed (w : Bank.world) (o : op) :
  keyed (Bank.bank w) → keyed (Bank.bank (exec w o)).
Proof.
  intros Hw. destruct o; cbn [exec].
  - apply add_customer_keyed; [| done].
    apply run_customer_calls_NoDup. constructor.
  - by apply remove_customer_keyed.
  - by apply create_account_keyed.
  - by apply deposit_keyed.
  - by apply withdraw_keyed.
  - by apply transfer_funds_keyed.
  - by apply apply_all_interest_keyed.
  - destruct Hw as [Hcs Hacs]. split; [| done]. cbn.
    apply map_Forall_alter_2; [| done]. intros c [Hid Hnd].
    split; [by rewrite run_customer_call_id | by apply run_customer_call_NoDup].
  - destruct Hw as [Hcs Hacs]. split; [done |]. cbn.
    apply accounts_keyed_alter; [| done]. intros a. apply run_call_account_number.
  - destruct Hw as [Hcs Hacs]. split; [done |]. cbn.
    apply accounts_keyed_alter; [| done]. intros [s | c]; cbn; [| done].
    unfold SavingsAccount.set_interest_rate. by case_bool_decide.
  - destruct Hw as [Hcs Hacs]. split; [done |]. cbn.
    apply accounts_keyed_alter; [| done]. intros [s | c]; cbn; [done |].
    unfold CheckingAccount.set_overdraft_limit. by case_bool_decide.
Qed.

Lemma reachable_keyed (w : Bank.world) : reachable w → keyed (Bank.bank w).
Proof.
  intros (fs & b & ops & Hinit & ->).
  apply init_keyed in Hinit.
  assert (keyed (Bank.bank (Bank.mk_world b fs))) as Hw by done.
  revert Hw. generalize (Bank.mk_world b fs). clear.
  induction ops as [| o ops IH]; intros w Hw; cbn; [done |].
  by apply IH, exec_keyed.
Qed.

(** ** Saving and loading *)

Section rebuild.
Context {V : Type} (key : V → string).

(** Filling a dictionary from a list of bindings: later bindings win. *)
Lemma foldl_insert_union (l : list (string * V)) (acc : gmap string V) :
  foldl (λ m kv, <[kv.1 := kv.2]> m) acc l = list_to_map (reverse l) ∪ acc.
Proof.
  revert acc. induction l as [| [k v] l IH]; intros acc; cbn [foldl].
  - by rewrite reverse_nil, list_to_map_nil, (left_id_L ∅ (∪)).
  - rewrite IH, reverse_cons, list_to_map_app. cbn.
    by rewrite <- (assoc_L (∪)), insert_empty, <- insert_union_singleton_l.
Qed.

Lemma foldl_store_by_bindings (vl : list V) (acc : gmap string V) :
  foldl (store_by key) acc vl
  = foldl (λ m kv, <[kv.1 := kv.2]> m) acc ((λ v, (key v, v)) <$> vl).
Proof.
  revert acc. induction vl as [| v vl IH]; intros acc; [done |].
  cbn. by rewrite IH.
Qed.

Lemma bindings_of_values (m : gmap string V) :
  map_Forall (λ k v, key v = k) m →
  (λ v, (key v, v)) <$> values m = map_to_list m.
Proof.
  intros Hm. unfold values. rewrite <- list_fmap_compose.
  rewrite <- (list_fmap_id (map_to_list m)) at 2.
  apply list_fmap_ext. intros i [k v] Hkv%list_elem_of_lookup_2%elem_of_map_to_list.
  cbn. by rewrite (Hm k v Hkv).
Qed.

(** Storing the values of a dictionary again, each under its key and in any
    order, gives the dictionary back when every value carries the key it is
    stored under. *)
Lemma foldl_store_by_values (m : gmap string V) (vl : list V) :
  map_Forall (λ k v, key v = k) m →
  vl ≡ₚ values m →
  foldl (store_by key) ∅ vl = m.
Proof.
  intros Hm Hvl.
  assert ((λ v, (key v, v)) <$> vl ≡ₚ map_to_list m) as Hl.
  { by rewrite Hvl, bindings_of_values. }
  rewrite foldl_store_by_bindings, foldl_insert_union, (right_id_L ∅ (∪)).
  rewrite <- (list_to_map_to_list m) at 1.
  symmetry. apply list_to_map_proper; [apply NoDup_fst_map_to_list |].
  by rewrite reverse_Permutation.
Qed.

End rebuild.

Lemma add_account_numbers_fresh (customer_id name address : string) (l0 l : list string) :
  NoDup (l0 ++ l) →
  foldl Customer.add_account_number (Customer.mk customer_id name address l0) l
  = Customer.mk customer_id name address (l0 ++ l).
Proof.
  revert l0. induction l as [| n l IH]; intros l0 Hnd; cbn [foldl].
  - by rewrite app_nil_r.
  - unfold Customer.add_account_number at 2. cbn.
    rewrite bool_decide_eq_false_2.
    + rewrite IH; rewrite <- (assoc_L (++)); done.
    + apply NoDup_app in Hnd as (_ & Hnot & _). intros Hn.
      apply (Hnot n Hn). by left.
Qed.

Lemma load_customer_to_dict (c : Customer.t) :
  NoDup (Customer.account_numbers c) →
  Bank.load_customer (Customer.to_dict c) = Ok c.
Proof.
  intros Hc. destruct c as [cid name address nums].
  unfold Bank.load_customer, Customer.__init__; cbn.
  by rewrite add_account_numbers_fresh.
Qed.

Lemma load_customers_to_dict (l : list Customer.t) (acc : gmap string Customer.t) :
  Forall (λ c, NoDup (Customer.account_numbers c)) l →
  Bank.load_customers (Customer.to_dict <$> l) acc
  = Ok (foldl (store_by Customer.customer_id) acc l).
Proof.
  intros Hl. revert acc. induction Hl as [| c l Hc Hl IH]; intros acc; [done |].
  rewrite fmap_cons. cbn [Bank.load_customers].
  rewrite load_customer_to_dict by done. apply IH.
Qed.

Lemma load_account_to_dict (a : Account) :
  Bank.load_account (Account.to_dict a) = Ok (Some a).
Proof. by destruct a as [[] | []]. Qed.

Lemma load_accounts_to_dict (l : list Account) (acc : gmap string Account) :
  Bank.load_accounts (Account.to_dict <$> l) acc
  = Ok (foldl (store_by Account.account_number) acc l).
Proof.
  revert acc. induction l as [| a l IH]; intros acc; [done |].
  rewrite fmap_cons. cbn [Bank.load_accounts].
  rewrite load_account_to_dict. apply IH.
Qed.

(** Loading the records of the two registries, listed in any order. *)
Lemma load_saved_any_order (b : Bank.t) (cl : list Customer.t) (al : list Account) :
  keyed b →
  cl ≡ₚ values (Bank._customers b) →
  al ≡ₚ values (Bank._accounts b) →
  Bank.__init__ (Bank.mk_files (Content (Customer.to_dict <$> cl))
                               (Content (Account.to_dict <$> al)))
  = Ok b.
Proof.
  intros [Hcs Hacs] Hcl Hal. unfold Bank.__init__, Bank._load_data. cbn.
  rewrite load_customers_to_dict.
  - cbn. rewrite load_accounts_to_dict. cbn.
    rewrite (foldl_store_by_values _ (Bank._customers b)),
            (foldl_store_by_values _ (Bank._accounts b)); try done.
    + by destruct b.
    + intros k c Hc. by apply (Hcs k c).
  - apply Forall_forall. intros c Hc. rewrite Hcl in Hc. unfold values in Hc.
    apply list_elem_of_fmap in Hc as ([k c'] & -> & Hkc%elem_of_map_to_list).
    by apply (Hcs k c').
Qed.

(** C6. In every state of the ledger, writing the two registries to the
    files with [_save_data] and constructing a bank from these files gives
    the same two registries: the same customers with their names, addresses
    and lists of account numbers, and the same accounts with their class,
    number, holder, balance and interest rate or overdraft limit.  The order
    in which the records of a registry are written does not matter. *)
Theorem save_load_roundtrip (w : Bank.world) :
  reachable w →
  Bank.__init__ (Bank.disk (Bank._save_data w)) = Ok (Bank.bank w)
  ∧ ∀ (cl : list Customer.t) (al : list Account),
      cl ≡ₚ values (Bank.customers w) →
      al ≡ₚ values (Bank.accounts w) →
      Bank.__init__ (Bank.mk_files (Content (Customer.to_dict <$> cl))
                                   (Content (Account.to_dict <$> al)))
      = Ok (Bank.bank w).
Proof.
  intros Hw%reachable_keyed. split.
  - by apply load_saved_any_order.
  - intros cl al Hcl Hal. by apply load_saved_any_order.
Qed.

(** The round trip, computed on the bank with one customer and two
    accounts. *)
Example save_load_small_bank :
  Bank.__init__ (Bank.disk (Bank._save_data small_bank)) = Ok (Bank.bank small_bank).
Proof. by vm_compute. Qed.

Lemma save_load_roundtrip_witness :
  reachable after_session
  ∧ Bank.__init__ (Bank.disk (Bank._save_data after_session)) = Ok (Bank.bank after_session).
Proof.
  assert (reachable after_session) as Hreach.
  { exists no_files, (Bank.mk ∅ ∅), session. split; reflexivity. }
  split; [exact Hreach |].
  destruct (save_load_roundtrip after_session Hreach) as [Hsame _]. exact Hsame.
Defined.

(** * Further properties *)

(** ** Accounts *)

Lemma account_holder_id_set_balance (a : Account) (b : Qc) :
  Account.account_holder_id (Account.set_balance a b) = Account.account_holder_id a.
Proof. by destruct a. Qed.









(** X4. The setter of [overdraft_limit] does not look at the balance: a
    limit that is not negative is stored even when the balance is already
    below minus that limit, and the account then breaks its floor. *)
Theorem overdraft_limit_setter_unchecked (c : CheckingAccount.t) (value : Qc) :
  0 ≤ value → CheckingAccount.balance c < - value →
  CheckingAccount.overdraft_limit (CheckingAccount.set_overdraft_limit c value) = value
  ∧ CheckingAccount.balance (CheckingAccount.set_overdraft_limit c value)
    = CheckingAccount.balance c
  ∧ ¬ Account.floor_ok (Checking (CheckingAccount.set_overdraft_limit c value)).
Proof.
  intros Hv Hlt. unfold CheckingAccount.set_overdraft_limit.
  rewrite bool_decide_eq_true_2 by done. cbn.
  split_and!; [done.. |]. by apply Qclt_nge.
Qed.

Lemma overdraft_limit_setter_unchecked_witness :
  0 ≤ Q2Qc 5
  ∧ CheckingAccount.balance (CheckingAccount.mk "acc-1" "C1" (- Q2Qc 10) (Q2Qc 20)) < - Q2Qc 5
  ∧ ¬ Account.floor_ok
        (Checking (CheckingAccount.set_overdraft_limit
                     (CheckingAccount.mk "acc-1" "C1" (- Q2Qc 10) (Q2Qc 20)) (Q2Qc 5))).
Proof.
  split; [by vm_compute |]. split; [by vm_compute |].
  apply (overdraft_limit_setter_unchecked
           (CheckingAccount.mk "acc-1" "C1" (- Q2Qc 10) (Q2Qc 20)) (Q2Qc 5));
    by vm_compute.
Defined.

(** ** Customer objects *)

Lemma list_remove_not_elem_of (x : string) (l : list string) :
  NoDup l → x ∉ Customer.list_remove x l.
Proof.
  induction 1 as [| y l Hy Hl IH]; cbn; [by apply not_elem_of_nil |].
  case_bool_decide as Hxy; [by subst y |].
  apply not_elem_of_cons. split; [done | exact IH].
Qed.

Lemma list_remove_snoc (x : string) (l : list string) :
  x ∉ l → Customer.list_remove x (l ++ [x]) = l.
Proof.
  induction l as [| y l IH]; cbn; intros Hx.
  - by rewrite bool_decide_eq_true_2.
  - apply not_elem_of_cons in Hx as [Hxy Hx].
    rewrite bool_decide_eq_false_2 by done. by rewrite IH.
Qed.

(** X5. A customer object, however it was built from its constructor by
    calls of its methods, lists no account number twice.  After
    [add_account_number(n)] the number is listed, after
    [remove_account_number(n)] it is not; adding a number twice is adding it
    once, and removing a number that was just added for the first time gives
    the customer back. *)
Theorem customer_account_numbers (customer_id name address n : string)
    (ks : list customer_call) :
  let c := foldl run_customer_call (Customer.__init__ customer_id name address) ks in
  NoDup (Customer.account_numbers c)
  ∧ n ∈ Customer.account_numbers (Customer.add_account_number c n)
  ∧ (n ∉ Customer.account_numbers (Customer.remove_account_number c n))
  ∧ Customer.add_account_number (Customer.add_account_number c n) n
    = Customer.add_account_number c n
  ∧ (n ∉ Customer.account_numbers c →
     Customer.remove_account_number (Customer.add_account_number c n) n = c).
Proof.
  cbv zeta.
  assert (NoDup (Customer.account_numbers
            (foldl run_customer_call (Customer.__init__ customer_id name address) ks)))
    as Hnd by (apply run_customer_calls_NoDup; constructor).
  revert Hnd. generalize (foldl run_customer_call
                            (Customer.__init__ customer_id name address) ks).
  intros c Hnd. split; [done |].
  unfold Customer.add_account_number, Customer.remove_account_number.
  destruct (decide (n ∈ Customer.account_numbers c)) as [Hin | Hnotin].
  - rewrite !(bool_decide_eq_true_2 _ Hin). cbn.
    rewrite ?(bool_decide_eq_true_2 _ Hin).
    split_and!; [done | by apply list_remove_not_elem_of | done | done].
  - rewrite !(bool_decide_eq_false_2 _ Hnotin). cbn.
    assert (n ∈ Customer.account_numbers c ++ [n]) as Hin'
      by (apply elem_of_app; right; by left).
    rewrite !(bool_decide_eq_true_2 _ Hin'). cbn.
    split_and!; [done | done | done |].
    intros _. rewrite list_remove_snoc by done. by destruct c.
Qed.

(** ** Customers of the bank *)

(** X6. [add_customer] never replaces a registered customer: once a customer
    is registered, adding any customer with the same identifier returns
    [False], changes neither the bank nor the files, and the first customer
    stays registered. *)
Theorem add_customer_keeps_first (w : Bank.world) (c c' : Customer.t) :
  Customer.customer_id c' = Customer.customer_id c →
  (Bank.add_customer w c).1 = true →
  Bank.add_customer (Bank.add_customer w c).2 c' = (false, (Bank.add_customer w c).2)
  ∧ Bank.customers (Bank.add_customer w c).2 !! Customer.customer_id c = Some c.
Proof.
  intros Hid. unfold Bank.add_customer at 1 3 4 5.
  destruct (Bank.customers w !! Customer.customer_id c) eqn:Hc; [done |].
  intros _. cbn [snd]. unfold Bank.add_customer, Bank.customers, Bank.with_customers. cbn.
  by rewrite Hid, lookup_insert_eq.
Qed.

Lemma add_customer_keeps_first_witness :
  Customer.customer_id (Customer.mk "C9" "Eve" "9 Low Rd" ["x"])
  = Customer.customer_id (Customer.__init__ "C9" "Dan" "4 Top Rd")
  ∧ (Bank.add_customer small_bank (Customer.__init__ "C9" "Dan" "4 Top Rd")).1 = true
  ∧ Bank.customers (Bank.add_customer small_bank (Customer.__init__ "C9" "Dan" "4 Top Rd")).2
      !! "C9"
    = Some (Customer.__init__ "C9" "Dan" "4 Top Rd").
Proof.
  split; [reflexivity |]. split; [by vm_compute |].
  apply (add_customer_keeps_first small_bank (Customer.__init__ "C9" "Dan" "4 Top Rd")
           (Customer.mk "C9" "Eve" "9 Low Rd" ["x"])); [reflexivity | by vm_compute].
Defined.

(** X7. [remove_customer] returns [True] exactly when the customer is
    registered and lists no account number.  It then drops this customer and
    no other and keeps the accounts; otherwise nothing changes, in the bank
    or in the files. *)
Theorem remove_customer_spec (w : Bank.world) (customer_id : string) :
  ((Bank.remove_customer w customer_id).1 = true ↔
     ∃ c, Bank.customers w !! customer_id = Some c ∧ Customer.account_numbers c = [])
  ∧ ((Bank.remove_customer w customer_id).1 = true →
       Bank.customers (Bank.remove_customer w customer_id).2
       = delete customer_id (Bank.customers w)
       ∧ Bank.accounts (Bank.remove_customer w customer_id).2 = Bank.accounts w)
  ∧ ((Bank.remove_customer w customer_id).1 = false →
       (Bank.remove_customer w customer_id).2 = w).
Proof.
  unfold Bank.remove_customer.
  destruct (Bank.customers w !! customer_id) as [c |] eqn:Hc.
  - case_bool_decide as Hnil; cbn [fst snd]; split_and!; try done.
    + split; [eauto | done].
    + split; [done |]. by intros (c' & [= <-] & ?).
  - cbn [fst snd]. split_and!; try done.
    split; [done |]. by intros (c' & [=] & ?).
Qed.

(** X8. Adding a customer who is not registered and lists no account number,
    and removing that customer again, succeeds twice and gives back the two
    registries as they were. *)
Theorem add_then_remove_customer (w : Bank.world) (c : Customer.t) :
  Bank.customers w !! Customer.customer_id c = None →
  Customer.account_numbers c = [] →
  (Bank.add_customer w c).1 = true
  ∧ (Bank.remove_customer (Bank.add_customer w c).2 (Customer.customer_id c)).1 = true
  ∧ Bank.bank (Bank.remove_customer (Bank.add_customer w c).2 (Customer.customer_id c)).2
    = Bank.bank w.
Proof.
  intros Hfresh Hnil. unfold Bank.add_customer. rewrite Hfresh. cbn [fst snd].
  unfold Bank.remove_customer, Bank.customers, Bank.with_customers. cbn.
  rewrite lookup_insert_eq, bool_decide_eq_true_2 by done. cbn.
  rewrite delete_insert_id by done. split_and!; try done.
  by destruct w as [[] ?].
Qed.

Lemma add_then_remove_customer_witness :
  Bank.customers small_bank !! Customer.customer_id (Customer.__init__ "C9" "Dan" "4 Top Rd")
  = None
  ∧ Customer.account_numbers (Customer.__init__ "C9" "Dan" "4 Top Rd") = []
  ∧ Bank.bank (Bank.remove_customer
                 (Bank.add_customer small_bank (Customer.__init__ "C9" "Dan" "4 Top Rd")).2
                 (Customer.customer_id (Customer.__init__ "C9" "Dan" "4 Top Rd"))).2
    = Bank.bank small_bank.
Proof.
  split; [by vm_compute |]. split; [reflexivity |].
  apply (add_then_remove_customer small_bank (Customer.__init__ "C9" "Dan" "4 Top Rd"));
    [by vm_compute | reflexivity].
Defined.

(** ** Account creation and the accounts of a customer *)

Lemma length_omap_le {A B} (f : A → option B) (l : list A) :
  (length (omap f l) ≤ length l)%nat.
Proof.
  induction l as [| x l IH]; [done |]. csimpl.
  destruct (f x); cbn; lia.
Qed.

Lemma elem_of_add_account_number (c : Customer.t) (n : string) :
  n ∈ Customer.account_numbers (Customer.add_account_number c n).
Proof.
  unfold Customer.add_account_number. case_bool_decide; [done |]. cbn.
  apply elem_of_app. right. by left.
Qed.

Lemma elem_of_get_customer_accounts (w : Bank.world) (customer_id : string) (a : Account) :
  a ∈ Bank.get_customer_accounts w customer_id ↔
    ∃ c n, Bank.customers w !! customer_id = Some c
           ∧ n ∈ Customer.account_numbers c
           ∧ Bank.accounts w !! n = Some a.
Proof.
  unfold Bank.get_customer_accounts.
  destruct (Bank.customers w !! customer_id) as [c |] eqn:Hc.
  - rewrite list_elem_of_omap. split.
    + intros (n & Hn & Ha). by exists c, n.
    + intros (c' & n & [= <-] & Hn & Ha). by exists n.
  - split; [by intros ?%elem_of_nil | by intros (c & n & [=] & _)].
Qed.

Lemma create_account_Some (w : Bank.world) (customer_id account_type : string)
    (initial_balance : Qc) (kw : kwargs) (uuid4 : string) (a : Account) :
  (Bank.create_account w customer_id account_type initial_balance kw uuid4).1 = Some a →
  Bank.accounts (Bank.create_account w customer_id account_type initial_balance kw uuid4).2
  = <[uuid4 := a]> (Bank.accounts w)
  ∧ ∃ c, Bank.customers w !! customer_id = Some c
         ∧ Bank.customers
             (Bank.create_account w customer_id account_type initial_balance kw uuid4).2
           = <[customer_id := Customer.add_account_number c uuid4]> (Bank.customers w).
Proof.
  unfold Bank.create_account.
  destruct (Bank.customers w !! customer_id) as [c |] eqn:Hc; [| done].
  repeat case_bool_decide; cbn [fst snd]; try done;
    intros [= <-]; (split; [done |]); by exists c.
Qed.

(** X9. [get_customer_accounts] returns exactly the registered accounts whose
    number the customer lists: a listed number without an account is passed
    over, so the result is never longer than the list, and an unknown
    customer has no accounts. *)
Theorem get_customer_accounts_spec (w : Bank.world) (customer_id : string) :
  (∀ a, a ∈ Bank.get_customer_accounts w customer_id ↔
     ∃ c n, Bank.customers w !! customer_id = Some c
            ∧ n ∈ Customer.account_numbers c
            ∧ Bank.accounts w !! n = Some a)
  ∧ (Bank.customers w !! customer_id = None → Bank.get_customer_accounts w customer_id = [])
  ∧ (∀ c, Bank.customers w !! customer_id = Some c →
       (length (Bank.get_customer_accounts w customer_id)
        ≤ length (Customer.account_numbers c))%nat).
Proof.
  split; [apply elem_of_get_customer_accounts |].
  unfold Bank.get_customer_accounts.
  destruct (Bank.customers w !! customer_id) as [c |]; split; try done.
  intros c' [= <-]. apply length_omap_le.
Qed.

(** X10. [create_account] returns [None] exactly when the customer is not
    registered or the type is neither ['savings'] nor ['checking'], and then
    changes nothing.  When it returns an account, this account is stored
    under the generated number, the number is added to the list of the
    customer, and no other account and no other customer is touched. *)
Theorem create_account_spec (w : Bank.world) (customer_id account_type : string)
    (initial_balance : Qc) (kw : kwargs) (uuid4 : string) :
  let r := Bank.create_account w customer_id account_type initial_balance kw uuid4 in
  (r.1 = None ↔ Bank.customers w !! customer_id = None ∨ recognized account_type = false)
  ∧ (r.1 = None → r.2 = w)
  ∧ (∀ a, r.1 = Some a →
       Bank.accounts r.2 = <[uuid4 := a]> (Bank.accounts w)
       ∧ ∃ c, Bank.customers w !! customer_id = Some c
              ∧ Bank.customers r.2
                = <[customer_id := Customer.add_account_number c uuid4]> (Bank.customers w)).
Proof.
  cbv zeta. split_and!; [| | apply create_account_Some].
  - unfold Bank.create_account, recognized.
    destruct (Bank.customers w !! customer_id) as [c |] eqn:Hc.
    + repeat case_bool_decide; cbn [fst snd orb];
        (split; [try done; by right | by intros [? | ?]]).
    + split; [by left | done].
  - unfold Bank.create_account.
    destruct (Bank.customers w !! customer_id) as [c |] eqn:Hc; [| done].
    by repeat case_bool_decide.
Qed.

(** X11. An account that [create_account] returns is among the accounts that
    [get_customer_accounts] returns for its customer right after, and the
    customer can then not be removed: [remove_customer] returns [False] and
    changes nothing. *)
Theorem created_account_listed (w : Bank.world) (customer_id account_type : string)
    (initial_balance : Qc) (kw : kwargs) (uuid4 : string) (a : Account) :
  (Bank.create_account w customer_id account_type initial_balance kw uuid4).1 = Some a →
  a ∈ Bank.get_customer_accounts
        (Bank.create_account w customer_id account_type initial_balance kw uuid4).2
        customer_id
  ∧ Bank.remove_customer
      (Bank.create_account w customer_id account_type initial_balance kw uuid4).2 customer_id
    = (false, (Bank.create_account w customer_id account_type initial_balance kw uuid4).2).
Proof.
  intros (Hacs & c & Hc & Hcs)%create_account_Some. split.
  - apply elem_of_get_customer_accounts.
    exists (Customer.add_account_number c uuid4), uuid4.
    rewrite Hcs, Hacs, !lookup_insert_eq. split_and!; try done.
    apply elem_of_add_account_number.
  - unfold Bank.remove_customer. rewrite Hcs, lookup_insert_eq.
    rewrite bool_decide_eq_false_2; [done |].
    intros Hnil. pose proof (elem_of_add_account_number c uuid4) as Hin.
    rewrite Hnil in Hin. by apply elem_of_nil in Hin.
Qed.

Lemma created_account_listed_witness :
  (Bank.create_account small_bank "C1" "checking" (Q2Qc 5) (mk_kwargs None None) "acc-new").1
  = Some (Checking (CheckingAccount.mk "acc-new" "C1" (Q2Qc 5) 0))
  ∧ Checking (CheckingAccount.mk "acc-new" "C1" (Q2Qc 5) 0)
    ∈ Bank.get_customer_accounts
        (Bank.create_account small_bank "C1" "checking" (Q2Qc 5)
           (mk_kwargs None None) "acc-new").2 "C1".
Proof.
  split; [by vm_compute |].
  apply (created_account_listed small_bank "C1" "checking" (Q2Qc 5)
           (mk_kwargs None None) "acc-new"). by vm_compute.
Defined.

(** ** Deposits, withdrawals and transfers through the bank *)




Lemma bank_deposit_cases (w : Bank.world) (n : string) (amount : Qc) :
  (∃ a, Bank.accounts w !! n = Some a ∧ 0 < amount
        ∧ Bank.deposit w n amount
          = (true, Bank._save_data
                     (Bank.with_accounts w
                        (<[n := Account.set_balance a (Account.balance a + amount)]>
                           (Bank.accounts w)))))
  ∨ ((Bank.accounts w !! n = None ∨ ¬ 0 < amount) ∧ Bank.deposit w n amount = (false, w)).
Proof.
  unfold Bank.deposit.
  destruct (Bank.accounts w !! n) as [a |] eqn:Ha; [| right; auto].
  rewrite deposit_eq. case_bool_decide; [left; by exists a | right; auto].
Qed.

Lemma bank_withdraw_cases (w : Bank.world) (n : string) (amount : Qc) :
  (∃ a, Bank.accounts w !! n = Some a ∧ (Account.withdraw a amount).1 = true
        ∧ Bank.withdraw w n amount
          = (true, Bank._save_data
                     (Bank.with_accounts w
                        (<[n := Account.set_balance a (Account.balance a - amount)]>
                           (Bank.accounts w)))))
  ∨ ((∀ a, Bank.accounts w !! n = Some a → (Account.withdraw a amount).1 = false)
     ∧ Bank.withdraw w n amount = (false, w)).
Proof.
  unfold Bank.withdraw.
  destruct (Bank.accounts w !! n) as [a |] eqn:Ha; [| right; by split].
  destruct (withdraw_cases a amount) as [Hw | Hw]; rewrite Hw.
  - left. exists a. by rewrite Hw.
  - right. split; [| done]. intros a' [= <-]. by rewrite Hw.
Qed.



(** X14. [transfer_funds] returns [True] exactly when both accounts are
    registered, the source accepts the withdrawal and the amount is strictly
    positive. *)
Theorem transfer_success_iff (w : Bank.world) (A B : string) (amount : Qc) :
  (Bank.transfer_funds w A B amount).1 = true ↔
    ∃ a b, Bank.accounts w !! A = Some a ∧ Bank.accounts w !! B = Some b
           ∧ (Account.withdraw a amount).1 = true ∧ 0 < amount.
Proof.
  unfold Bank.transfer_funds.
  destruct (Bank.accounts w !! A) as [a |] eqn:Ha;
    [| split; [done | by intros (? & ? & [=] & _)]].
  destruct (Bank.accounts w !! B) as [b |] eqn:Hb;
    [| split; [done | by intros (? & ? & _ & [=] & _)]].
  destruct (withdraw_cases a amount) as [Hw | Hw]; rewrite Hw.
  - rewrite !deposit_eq. case_bool_decide as Hpos; cbn [fst snd].
    + split; [| done]. intros _. exists a, b. by rewrite Hw.
    + split; [done |]. by intros (? & ? & _ & _ & _ & ?).
  - split; [done |]. intros (a' & ? & [= <-] & _ & Hok & _). by rewrite Hw in Hok.
Qed.



(** X16. Whatever it returns, [transfer_funds] touches no customer and no
    account other than the source and the destination, and when it returns
    [False] a destination that is not the source is untouched as well. *)
Theorem transfer_frame (w : Bank.world) (A B : string) (amount : Qc) :
  Bank.customers (Bank.transfer_funds w A B amount).2 = Bank.customers w
  ∧ (∀ n, n ≠ A → n ≠ B →
       Bank.accounts (Bank.transfer_funds w A B amount).2 !! n = Bank.accounts w !! n)
  ∧ ((Bank.transfer_funds w A B amount).1 = false → B ≠ A →
       Bank.accounts (Bank.transfer_funds w A B amount).2 !! B = Bank.accounts w !! B).
Proof.
  unfold Bank.transfer_funds.
  destruct (Bank.accounts w !! A) as [a |] eqn:Ha; [| done].
  destruct (Bank.accounts w !! B) as [b |] eqn:Hb; [| done].
  destruct (withdraw_cases a amount) as [-> | ->]; [| done].
  rewrite !deposit_eq. case_bool_decide as Hpos; cbn [fst snd];
    unfold Bank.accounts, Bank.customers, Bank.with_accounts in *; cbn.
  - split_and!; [done | | done].
    intros n HnA HnB. by rewrite !lookup_insert_ne.
  - split_and!; [done | |].
    + intros n HnA HnB. by rewrite !lookup_insert_ne.
    + intros _ HBA. by rewrite !lookup_insert_ne.
Qed.

(** ** Invariants of the ledger *)

Lemma exec_accounts_dom (w : Bank.world) (o : op) :
  dom (Bank.accounts w) ⊆ dom (Bank.accounts (exec w o)).
Proof.
  destruct o; cbn [exec].
  - unfold Bank.add_customer. by destruct (Bank.customers w !! _).
  - unfold Bank.remove_customer.
    destruct (Bank.customers w !! _); [| done]. by case_bool_decide.
  - unfold Bank.create_account.
    destruct (Bank.customers w !! _); [| done].
    repeat case_bool_decide; cbn [snd]; try done;
      unfold Bank.accounts, Bank.with_accounts; cbn;
      rewrite dom_insert_L; set_solver.
  - destruct (bank_deposit_cases w account_number amount) as [(a & _ & _ & ->) | [_ ->]];
      [| done].
    unfold Bank.accounts, Bank.with_accounts; cbn. rewrite dom_insert_L; set_solver.
  - destruct (bank_withdraw_cases w account_number amount) as [(a & _ & _ & ->) | [_ ->]];
      [| done].
    unfold Bank.accounts, Bank.with_accounts; cbn. rewrite dom_insert_L; set_solver.
  - unfold Bank.transfer_funds.
    destruct (Bank.accounts w !! from_acc_num) as [a |]; [| done].
    destruct (Bank.accounts w !! to_acc_num) as [b |]; [| done].
    destruct (withdraw_cases a amount) as [-> | ->]; [| done].
    rewrite !deposit_eq. case_bool_decide; cbn [snd];
      unfold Bank.accounts, Bank.with_accounts; cbn;
      rewrite !dom_insert_L; set_solver.
  - unfold Bank.apply_all_interest, Bank.accounts, Bank.with_accounts; cbn.
    by rewrite dom_fmap_L.
  - done.
  - unfold Bank.accounts, Bank.with_accounts; cbn. by rewrite dom_alter_L.
  - unfold Bank.accounts, Bank.with_accounts; cbn. by rewrite dom_alter_L.
  - unfold Bank.accounts, Bank.with_accounts; cbn. by rewrite dom_alter_L.
Qed.

(** X17. No call removes an account: along any sequence of calls, on the
    bank or on the objects it stores, every registered account number stays
    registered. *)
Theorem accounts_never_removed (w : Bank.world) (ops : list op) :
  dom (Bank.accounts w) ⊆ dom (Bank.accounts (foldl exec w ops)).
Proof.
  revert w. induction ops as [| o ops IH]; intros w; cbn [foldl]; [done |].
  etrans; [apply exec_accounts_dom | apply IH].
Qed.

(** X18. In every state of the ledger, every customer is stored under its
    own identifier and every account under its own number, and no customer
    lists an account number twice. *)
Theorem stored_under_own_id (w : Bank.world) :
  reachable w →
  (∀ k c, Bank.customers w !! k = Some c →
     Customer.customer_id c = k ∧ NoDup (Customer.account_numbers c))
  ∧ (∀ n a, Bank.accounts w !! n = Some a → Account.account_number a = n).
Proof.
  intros [Hcs Hacs]%reachable_keyed. split.
  - intros k c Hc. by apply (Hcs k c).
  - intros n a Ha. by apply (Hacs n a).
Qed.

Lemma stored_under_own_id_witness :
  reachable after_session
  ∧ (∀ n a, Bank.accounts after_session !! n = Some a → Account.account_number a = n).
Proof.
  assert (reachable after_session) as Hreach.
  { exists no_files, (Bank.mk ∅ ∅), session. split; reflexivity. }
  split; [exact Hreach |].
  destruct (stored_under_own_id after_session Hreach) as [_ Hacs]. exact Hacs.
Defined.

Lemma owned_update (cs : gmap string Customer.t) (acs : gmap string Account)
    (k : string) (a a' : Account) :
  owned (Bank.mk cs acs) → acs !! k = Some a →
  Account.account_holder_id a' = Account.account_holder_id a →
  owned (Bank.mk cs (<[k := a']> acs)).
Proof.
  intros Hown Ha Hholder. apply map_Forall_insert_2; [| done].
  rewrite Hholder. by apply (Hown k a).
Qed.

Lemma elem_of_add_account_number_mono (c : Customer.t) (n m : string) :
  n ∈ Customer.account_numbers c →
  n ∈ Customer.account_numbers (Customer.add_account_number c m).
Proof.
  intros Hn. unfold Customer.add_account_number. case_bool_decide; [done |]. cbn.
  apply elem_of_app. by left.
Qed.

Lemma create_account_holder (w : Bank.world) (customer_id account_type : string)
    (initial_balance : Qc) (kw : kwargs) (uuid4 : string) (a : Account) :
  (Bank.create_account w customer_id account_type initial_balance kw uuid4).1 = Some a →
  Account.account_holder_id a = customer_id.
Proof.
  unfold Bank.create_account.
  destruct (Bank.customers w !! customer_id); [| done].
  repeat case_bool_decide; cbn [fst]; try done; by intros [= <-].
Qed.

Lemma create_account_None (w : Bank.world) (customer_id account_type : string)
    (initial_balance : Qc) (kw : kwargs) (uuid4 : string) :
  (Bank.create_account w customer_id account_type initial_balance kw uuid4).1 = None →
  (Bank.create_account w customer_id account_type initial_balance kw uuid4).2 = w.
Proof.
  unfold Bank.create_account.
  destruct (Bank.customers w !! customer_id); [| done].
  by repeat case_bool_decide.
Qed.

Lemma exec_owned (w : Bank.world) (o : op) :
  is_bank_call o = true → owned (Bank.bank w) → owned (Bank.bank (exec w o)).
Proof.
  intros Hcall Hown. destruct w as [[cs acs] fs].
  destruct o; try done; cbn [exec].
  - unfold Bank.add_customer. cbn.
    destruct (cs !! _) eqn:Hc; [done |]. cbn.
    intros n a Ha. destruct (Hown n a Ha) as (c & Hcust & Hn). cbn in Hcust.
    exists c. split; [| done]. cbn. rewrite lookup_insert_ne; [done |]. congruence.
  - unfold Bank.remove_customer. cbn.
    destruct (cs !! customer_id) as [c |] eqn:Hc; [| done].
    case_bool_decide as Hnil; [| done]. cbn.
    intros n a Ha. destruct (Hown n a Ha) as (c' & Hcust & Hn). cbn in Hcust.
    exists c'. split; [| done]. cbn. rewrite lookup_delete_ne; [done |].
    intros Heq. rewrite <- Heq, Hc in Hcust. injection Hcust as <-.
    rewrite Hnil in Hn. by apply elem_of_nil in Hn.
  - destruct (Bank.create_account _ customer_id account_type initial_balance kw uuid4)
      as [[a |] w'] eqn:Hcreate.
    + pose proof (create_account_Some (Bank.mk_world (Bank.mk cs acs) fs) customer_id
                    account_type initial_balance kw uuid4 a) as Hsome.
      pose proof (create_account_holder (Bank.mk_world (Bank.mk cs acs) fs) customer_id
                    account_type initial_balance kw uuid4 a) as Hholder.
      rewrite Hcreate in Hsome, Hholder. cbn [fst snd] in Hsome, Hholder.
      destruct (Hsome eq_refl) as (Hacs & c & Hc & Hcs). specialize (Hholder eq_refl).
      unfold owned, Bank.accounts, Bank.customers in *. cbn in Hacs, Hcs, Hc |- *.
      rewrite Hacs, Hcs. intros n a'. rewrite lookup_insert_Some.
      intros [[<- <-] | [Hne Ha']].
      * exists (Customer.add_account_number c uuid4).
        rewrite Hholder, lookup_insert_eq. split; [done |].
        apply elem_of_add_account_number.
      * destruct (Hown n a' Ha') as (c' & Hcust & Hn). cbn in Hcust.
        destruct (decide (Account.account_holder_id a' = customer_id)) as [Heq | Hneq].
        -- exists (Customer.add_account_number c uuid4).
           rewrite Heq, lookup_insert_eq. split; [done |].
           rewrite Heq, Hc in Hcust. injection Hcust as <-.
           by apply elem_of_add_account_number_mono.
        -- exists c'. by rewrite lookup_insert_ne.
    + pose proof (create_account_None (Bank.mk_world (Bank.mk cs acs) fs) customer_id
                    account_type initial_balance kw uuid4) as Hnone.
      rewrite Hcreate in Hnone. cbn [fst snd] in Hnone. by rewrite (Hnone eq_refl).
  - destruct (bank_deposit_cases (Bank.mk_world (Bank.mk cs acs) fs) account_number amount)
      as [(a & Ha & _ & ->) | [_ ->]]; [| done].
    cbn. eapply owned_update; [done.. | apply account_holder_id_set_balance].
  - destruct (bank_withdraw_cases (Bank.mk_world (Bank.mk cs acs) fs) account_number amount)
      as [(a & Ha & _ & ->) | [_ ->]]; [| done].
    cbn. eapply owned_update; [done.. | apply account_holder_id_set_balance].
  - unfold Bank.transfer_funds. cbn.
    destruct (acs !! from_acc_num) as [a |] eqn:Ha; [| done].
    destruct (acs !! to_acc_num) as [b |] eqn:Hb; [| done].
    destruct (withdraw_cases a amount) as [-> | ->]; [| done].
    assert (owned (Bank.mk cs
              (<[from_acc_num := Account.set_balance a (Account.balance a - amount)]> acs)))
      as Hown1.
    { eapply owned_update; [done.. | apply account_holder_id_set_balance]. }
    rewrite !deposit_eq. case_bool_decide; cbn.
    + case_bool_decide as HAB.
      * subst to_acc_num. eapply owned_update; [done | apply lookup_insert_eq |].
        apply account_holder_id_set_balance.
      * eapply owned_update; [done | by rewrite lookup_insert_ne |].
        apply account_holder_id_set_balance.
    + eapply owned_update; [done | apply lookup_insert_eq | done].
  - unfold Bank.apply_all_interest, owned. cbn.
    apply map_Forall_fmap. intros n a Ha. cbn.
    destruct (Hown n a Ha) as (c & Hcust & Hn). exists c. by destruct a.
Qed.

(** X19. Calls on the bank keep every account attached to its holder: if
    every registered account is held by a registered customer who lists its
    number, this is still so after any sequence of calls on the bank, and
    [get_customer_accounts] then returns every account for its holder. *)
Theorem accounts_stay_owned (w : Bank.world) (ops : list op) :
  owned (Bank.bank w) → forallb is_bank_call ops = true →
  owned (Bank.bank (foldl exec w ops))
  ∧ ∀ n a, Bank.accounts (foldl exec w ops) !! n = Some a →
      a ∈ Bank.get_customer_accounts (foldl exec w ops) (Account.account_holder_id a).
Proof.
  intros Hown Hops.
  assert (owned (Bank.bank (foldl exec w ops))) as Hown'.
  { revert w Hown. induction ops as [| o ops IH]; intros w Hown; cbn [foldl]; [done |].
    cbn in Hops. apply andb_prop in Hops as [Ho Hops].
    apply IH; [done |]. by apply exec_owned. }
  split; [done |]. intros n a Ha.
  destruct (Hown' n a Ha) as (c & Hc & Hn).
  apply elem_of_get_customer_accounts. by exists c, n.
Qed.

Lemma accounts_stay_owned_witness :
  owned (Bank.mk ∅ ∅)
  ∧ forallb is_bank_call (take 9 session) = true
  ∧ owned (Bank.bank (foldl exec (Bank.mk_world (Bank.mk ∅ ∅) no_files) (take 9 session))).
Proof.
  split; [apply map_Forall_empty |]. split; [reflexivity |].
  apply (accounts_stay_owned (Bank.mk_world (Bank.mk ∅ ∅) no_files) (take 9 session));
    [apply map_Forall_empty | reflexivity].
Defined.

(** ** Write-through *)

Lemma save_data_twice (w : Bank.world) :
  Bank._save_data (Bank._save_data w) = Bank._save_data w.
Proof. done. Qed.

Lemma succeeds_saved (w : Bank.world) (o : op) :
  succeeds w o = true → exec w o = Bank._save_data (exec w o).
Proof.
  destruct o; cbn [succeeds exec]; try done.
  - unfold Bank.add_customer. by destruct (Bank.customers w !! _).
  - unfold Bank.remove_customer.
    destruct (Bank.customers w !! _); [| done]. by case_bool_decide.
  - unfold Bank.create_account.
    destruct (Bank.customers w !! _); [| done]. by repeat case_bool_decide.
  - by destruct (bank_deposit_cases w account_number amount) as [(a & _ & _ & ->) | [_ ->]].
  - by destruct (bank_withdraw_cases w account_number amount) as [(a & _ & _ & ->) | [_ ->]].
  - unfold Bank.transfer_funds.
    destruct (Bank.accounts w !! from_acc_num) as [a |]; [| done].
    destruct (Bank.accounts w !! to_acc_num) as [b |]; [| done].
    destruct (withdraw_cases a amount) as [-> | ->]; [| done].
    rewrite !deposit_eq. by case_bool_decide.
Qed.

Lemma reachable_exec (w : Bank.world) (o : op) : reachable w → reachable (exec w o).
Proof.
  intros (fs & b & ops & Hinit & ->). exists fs, b, (ops ++ [o]).
  split; [done |]. by rewrite foldl_snoc.
Qed.

Lemma transfer_funds_customers (w : Bank.world) (A B : string) (amount : Qc) :
  Bank.customers (Bank.transfer_funds w A B amount).2 = Bank.customers w.
Proof.
  unfold Bank.transfer_funds.
  destruct (Bank.accounts w !! A) as [a |]; [| done].
  destruct (Bank.accounts w !! B) as [b |]; [| done].
  destruct (withdraw_cases a amount) as [-> | ->]; [| done].
  rewrite !deposit_eq. by case_bool_decide.
Qed.

(** X20. Every call on the bank that reports success leaves the files in
    step with the bank: constructing a bank from the files right after the
    call gives the two registries as the call left them. *)
Theorem write_through (w : Bank.world) (o : op) :
  reachable w → succeeds w o = true →
  Bank.__init__ (Bank.disk (exec w o)) = Ok (Bank.bank (exec w o)).
Proof.
  intros Hw Hok. rewrite (succeeds_saved w o Hok) at 1.
  apply (load_saved_any_order (Bank.bank (exec w o))); [| done..].
  by apply reachable_keyed, reachable_exec.
Qed.

Lemma write_through_witness :
  reachable after_session
  ∧ succeeds after_session (TransferFunds "acc-c" "acc-s" (Q2Qc 17)) = true
  ∧ Bank.__init__ (Bank.disk (exec after_session (TransferFunds "acc-c" "acc-s" (Q2Qc 17))))
    = Ok (Bank.bank (exec after_session (TransferFunds "acc-c" "acc-s" (Q2Qc 17)))).
Proof.
  assert (reachable after_session) as Hreach.
  { exists no_files, (Bank.mk ∅ ∅), session. split; reflexivity. }
  split; [exact Hreach |]. split; [by vm_compute |].
  apply (write_through after_session (TransferFunds "acc-c" "acc-s" (Q2Qc 17)));
    [exact Hreach | by vm_compute].
Defined.

(** X21. A call on the bank that reports failure writes nothing and touches
    no customer, and unless it is a transfer it leaves the bank exactly as it
    was. *)
Theorem failed_call_changes_nothing (w : Bank.world) (o : op) :
  is_bank_call o = true → succeeds w o = false →
  Bank.disk (exec w o) = Bank.disk w
  ∧ Bank.customers (exec w o) = Bank.customers w
  ∧ ((∀ A B amount, o ≠ TransferFunds A B amount) → exec w o = w).
Proof.
  intros Hcall Hfail. destruct o; try done; cbn [succeeds exec] in *.
  - revert Hfail. unfold Bank.add_customer. by destruct (Bank.customers w !! _).
  - revert Hfail. unfold Bank.remove_customer.
    destruct (Bank.customers w !! _); [| done]. by case_bool_decide.
  - rewrite create_account_None; [done |].
    by destruct (Bank.create_account _ _ _ _ _ _).1.
  - revert Hfail.
    by destruct (bank_deposit_cases w account_number amount) as [(a & _ & _ & ->) | [_ ->]].
  - revert Hfail.
    by destruct (bank_withdraw_cases w account_number amount) as [(a & _ & _ & ->) | [_ ->]].
  - split_and!.
    + revert Hfail. unfold Bank.transfer_funds.
      destruct (Bank.accounts w !! from_acc_num) as [a |]; [| done].
      destruct (Bank.accounts w !! to_acc_num) as [b |]; [| done].
      destruct (withdraw_cases a amount) as [-> | ->]; [| done].
      rewrite !deposit_eq. by case_bool_decide.
    + apply transfer_funds_customers.
    + intros Hne. by destruct (Hne from_acc_num to_acc_num amount).
Qed.

Lemma failed_call_changes_nothing_witness :
  is_bank_call (RemoveCustomer "C1") = true
  ∧ succeeds small_bank (RemoveCustomer "C1") = false
  ∧ Bank.disk (exec small_bank (RemoveCustomer "C1")) = Bank.disk small_bank.
Proof.
  split; [reflexivity |]. split; [by vm_compute |].
  apply (failed_call_changes_nothing small_bank (RemoveCustomer "C1"));
    [reflexivity | by vm_compute].
Defined.

(** ** Loading *)






Lemma elem_of_add_account_numbers (c : Customer.t) (l : list string) (n : string) :
  n ∈ Customer.account_numbers (foldl Customer.add_account_number c l) ↔
    n ∈ Customer.account_numbers c ∨ n ∈ l.
Proof.
  revert c. induction l as [| m l IH]; intros c; cbn [foldl].
  - rewrite elem_of_nil. tauto.
  - rewrite IH, elem_of_cons. unfold Customer.add_account_number.
    case_bool_decide as Hm; cbn.
    + split; [tauto |]. intros [? | [-> | ?]]; tauto.
    + rewrite elem_of_app, list_elem_of_singleton. tauto.
Qed.

Lemma add_account_numbers_name_address (c : Customer.t) (l : list string) :
  Customer.name (foldl Customer.add_account_number c l) = Customer.name c
  ∧ Customer.address (foldl Customer.add_account_number c l) = Customer.address c.
Proof.
  revert c. induction l as [| m l IH]; intros c; cbn [foldl]; [done |].
  destruct (IH (Customer.add_account_number c m)) as [-> ->].
  unfold Customer.add_account_number. by case_bool_decide.
Qed.

(** X23. A customer record that loads gives a customer with the identifier,
    name and address of the record and with the account numbers of the
    record, each listed once; a record without ['account_numbers'] gives a
    customer without accounts. *)
Theorem load_customer_spec (cust : CustomerDict.t) (c : Customer.t) :
  Bank.load_customer cust = Ok c →
  CustomerDict.customer_id cust = Some (Customer.customer_id c)
  ∧ CustomerDict.name cust = Some (Customer.name c)
  ∧ CustomerDict.address cust = Some (Customer.address c)
  ∧ NoDup (Customer.account_numbers c)
  ∧ (∀ n, n ∈ Customer.account_numbers c ↔
          n ∈ default [] (CustomerDict.account_numbers cust))
  ∧ (CustomerDict.account_numbers cust = None → Customer.account_numbers c = []).
Proof.
  intros Hload. pose proof (load_customer_NoDup cust c Hload) as Hnd.
  revert Hload. unfold Bank.load_customer.
  destruct (CustomerDict.customer_id cust) as [cid |]; [| done].
  destruct (CustomerDict.name cust) as [name |]; [| done].
  destruct (CustomerDict.address cust) as [address |]; [| done].
  cbn. intros [= <-]. split_and!.
  - by rewrite add_account_numbers_id.
  - by rewrite (proj1 (add_account_numbers_name_address _ _)).
  - by rewrite (proj2 (add_account_numbers_name_address _ _)).
  - done.
  - intros n. rewrite elem_of_add_account_numbers. cbn. rewrite elem_of_nil. tauto.
  - by intros ->.
Qed.

Lemma load_customer_spec_witness :
  Bank.load_customer (CustomerDict.mk (Some "C1") (Some "Ada") (Some "1 Main St")
                        (Some ["a"; "b"; "a"]))
  = Ok (Customer.mk "C1" "Ada" "1 Main St" ["a"; "b"])
  ∧ NoDup (Customer.account_numbers (Customer.mk "C1" "Ada" "1 Main St" ["a"; "b"])).
Proof.
  split; [reflexivity |].
  apply (load_customer_spec
           (CustomerDict.mk (Some "C1") (Some "Ada") (Some "1 Main St") (Some ["a"; "b"; "a"]))
           (Customer.mk "C1" "Ada" "1 Main St" ["a"; "b"])).
  reflexivity.
Defined.

Lemma load_account_skipped (acc : AccountDict.t) :
  skipped acc = true → Bank.load_account acc = Ok None.
Proof.
  unfold skipped, recognized, Bank.load_account.
  destruct (AccountDict.type acc) as [ty |]; [| done]. cbn.
  by repeat case_bool_decide.
Qed.

(** X24. Account records of an unknown type have no effect on a load,
    whatever else they hold or lack: loading a list of records is loading
    the list without them. *)
Theorem load_accounts_skips_unknown (account_data : list AccountDict.t)
    (acs : gmap string Account) :
  Bank.load_accounts account_data acs
  = Bank.load_accounts (filter (λ acc, skipped acc = false) account_data) acs.
Proof.
  revert acs. induction account_data as [| acc rest IH]; intros acs; [done |].
  destruct (skipped acc) eqn:Hskip.
  - rewrite filter_cons_False by (by rewrite Hskip).
    cbn [Bank.load_accounts]. rewrite load_account_skipped by done. apply IH.
  - rewrite filter_cons_True by done. cbn [Bank.load_accounts].
    destruct (Bank.load_account acc) as [[a |] | e]; cbn; [apply IH | apply IH | done].
Qed.

Lemma load_accounts_app (l1 l2 : list AccountDict.t) (acs : gmap string Account) :
  Bank.load_accounts (l1 ++ l2) acs = Bank.load_accounts l1 acs ≫= Bank.load_accounts l2.
Proof.
  revert acs. induction l1 as [| acc l1 IH]; intros acs; [done |].
  cbn. destruct (Bank.load_account acc) as [[a |] | e]; cbn; [apply IH | apply IH | done].
Qed.

(** X25. When two account records carry the same number, the later one is
    the account that is loaded: a record that follows a list of records
    replaces whatever the list has put under its number. *)
Theorem load_accounts_last_wins (account_data : list AccountDict.t) (acc : AccountDict.t)
    (acs m : gmap string Account) (a : Account) :
  Bank.load_accounts account_data acs = Ok m →
  Bank.load_account acc = Ok (Some a) →
  Bank.load_accounts (account_data ++ [acc]) acs = Ok (<[Account.account_number a := a]> m)
  ∧ AccountDict.account_number acc = Some (Account.account_number a).
Proof.
  intros Hdata Hacc. split; [| by apply load_account_keyed].
  rewrite load_accounts_app, Hdata. cbn. by rewrite Hacc.
Qed.

Lemma load_accounts_last_wins_witness :
  Bank.load_accounts
    [AccountDict.mk (Some "savings") (Some "n") (Some "C1") (Some 1) None None] ∅
  = Ok {[ "n" := Savings (SavingsAccount.mk "n" "C1" 1 default_interest_rate) ]}
  ∧ Bank.load_account (AccountDict.mk (Some "checking") (Some "n") (Some "C2") None None None)
    = Ok (Some (Checking (CheckingAccount.mk "n" "C2" 0 0)))
  ∧ Bank.load_accounts
      ([AccountDict.mk (Some "savings") (Some "n") (Some "C1") (Some 1) None None]
       ++ [AccountDict.mk (Some "checking") (Some "n") (Some "C2") None None None]) ∅
    = Ok (<[Account.account_number (Checking (CheckingAccount.mk "n" "C2" 0 0))
            := Checking (CheckingAccount.mk "n" "C2" 0 0)]>
            {[ "n" := Savings (SavingsAccount.mk "n" "C1" 1 default_interest_rate) ]}).
Proof.
  split; [reflexivity |]. split; [reflexivity |].
  apply (load_accounts_last_wins
           [AccountDict.mk (Some "savings") (Some "n") (Some "C1") (Some 1) None None]
           (AccountDict.mk (Some "checking") (Some "n") (Some "C2") None None None)
           ∅ _ (Checking (CheckingAccount.mk "n" "C2" 0 0))); reflexivity.
Defined.

(** ** Floors in the bank *)









(** X27. A transfer of a strictly positive amount that returns [False] has
    changed nothing, in the bank or in the files, and it has failed because
    an account is not registered or because the source refused the
    withdrawal. *)
Theorem failed_positive_transfer (w : Bank.world) (A B : string) (amount : Qc) :
  0 < amount →
  (Bank.transfer_funds w A B amount).1 = false →
  (Bank.transfer_funds w A B amount).2 = w
  ∧ (Bank.accounts w !! A = None ∨ Bank.accounts w !! B = None
     ∨ ∃ a, Bank.accounts w !! A = Some a ∧ (Account.withdraw a amount).1 = false).
Proof.
  intros Hpos Hfail. split.
  - apply (transfer_failure_pos w _ A B amount Hpos).
    rewrite <- Hfail. apply surjective_pairing.
  - revert Hfail. unfold Bank.transfer_funds.
    destruct (Bank.accounts w !! A) as [a |]; [| auto].
    destruct (Bank.accounts w !! B) as [b |]; [| auto].
    destruct (withdraw_cases a amount) as [Hw | Hw]; rewrite Hw.
    + by rewrite !deposit_eq, bool_decide_eq_true_2.
    + intros _. right. right. exists a. by rewrite Hw.
Qed.

Lemma failed_positive_transfer_witness :
  0 < Q2Qc 500
  ∧ (Bank.transfer_funds small_bank "acc-s" "acc-c" (Q2Qc 500)).1 = false
  ∧ (Bank.transfer_funds small_bank "acc-s" "acc-c" (Q2Qc 500)).2 = small_bank.
Proof.
  split; [by vm_compute |]. split; [by vm_compute |].
  apply (failed_positive_transfer small_bank "acc-s" "acc-c" (Q2Qc 500)); by vm_compute.
Defined.
